(** * certgen.py: local root CA and per-domain certificate issuance

    A shallow embedding of [src/certgen.py].  The program is a sequence of
    prompts, path computations, one generated text file and a series of
    [openssl] invocations.  It is embedded as a state-and-exception monad
    over a small model of the process environment (search path, file
    system, standard input and a log of visible effects).

    Python [str] values are embedded as [string]; a character stands for a
    code point below 256.  The built-in methods the program calls
    ([strip], [lower], [split], [replace], [in], [list.insert], [str] on a
    number) are written out with the behaviour CPython gives them on such
    strings. *)

From Stdlib Require Import Ascii DecimalString.
From stdpp Require Import base gmap strings list.


(** ** Python string primitives *)

Module Py.

(** Code point of a character. *)
Definition ord (c : ascii) : nat := nat_of_ascii c.

(** [str.isspace] on one code point below 256: the ASCII controls 9-13 and
    28-31, the blank, NEL (0x85) and the no-break space (0xA0). *)
Definition isspace (c : ascii) : bool :=
  let n := ord c in
  ((9 <=? n) && (n <=? 13)) || ((28 <=? n) && (n <=? 32))
  || (n =? 133) || (n =? 160).

(** [str.lower] on one code point below 256: A-Z and the Latin-1 capitals
    0xC0-0xDE (the multiplication sign 0xD7 apart) move up by 32. *)
Definition lower_char (c : ascii) : ascii :=
  let n := ord c in
  if ((65 <=? n) && (n <=? 90))
     || ((192 <=? n) && (n <=? 222) && negb (n =? 215))
  then ascii_of_nat (n + 32) else c.

Fixpoint lower (s : string) : string :=
  match s with
  | EmptyString => EmptyString
  | String c r => String (lower_char c) (lower r)
  end.

(** [str.lstrip()], [str.rstrip()] and [str.strip()] without argument. *)
Fixpoint lstrip (s : string) : string :=
  match s with
  | EmptyString => EmptyString
  | String c r => if isspace c then lstrip r else s
  end.

Fixpoint rstrip (s : string) : string :=
  match s with
  | EmptyString => EmptyString
  | String c r =>
      match rstrip r with
      | EmptyString => if isspace c then EmptyString else String c EmptyString
      | r' => String c r'
      end
  end.

Definition strip (s : string) : string := rstrip (lstrip s).

(** [s.split(sep)] for a one-character separator: the segments between the
    separators, empty ones included; the empty string gives [['']]. *)
Fixpoint split (sep : ascii) (s : string) : list string :=
  match s with
  | EmptyString => [EmptyString]
  | String c r =>
      if Ascii.eqb c sep then EmptyString :: split sep r
      else match split sep r with
           | h :: t => String c h :: t
           | [] => [String c EmptyString]
           end
  end.

(** [s.startswith(p)]. *)
Fixpoint startswith (p s : string) : bool :=
  match p, s with
  | EmptyString, _ => true
  | String a p', String b s' => Ascii.eqb a b && startswith p' s'
  | String _ _, EmptyString => false
  end.

(** [old in s] for strings: [old] occurs somewhere in [s]. *)
Fixpoint contains (old s : string) : bool :=
  startswith old s ||
  match s with
  | EmptyString => false
  | String _ r => contains old r
  end.

(** [s.replace(old, new)] for a non-empty [old]: one scan from the left,
    each occurrence found is replaced and the scan resumes after it.
    [skip] counts the characters of the occurrence still to be dropped.
    For an empty [old] Python puts [new] before every character and at the
    end. *)
Fixpoint replace_scan (old new : string) (skip : nat) (s : string) : string :=
  match s with
  | EmptyString => EmptyString
  | String c r =>
      match skip with
      | S k => replace_scan old new k r
      | O =>
          if startswith old s
          then new +:+ replace_scan old new (String.length old - 1) r
          else String c (replace_scan old new 0 r)
      end
  end.

Fixpoint replace_empty (new s : string) : string :=
  match s with
  | EmptyString => new
  | String c r => new +:+ String c (replace_empty new r)
  end.

Definition replace (old new s : string) : string :=
  match old with
  | EmptyString => replace_empty new s
  | String _ _ => replace_scan old new 0 s
  end.

(** [x in l] on a list of strings: the first element equal to [x] decides. *)
Fixpoint list_contains (x : string) (l : list string) : bool :=
  match l with
  | [] => false
  | y :: t => if String.eqb y x then true else list_contains x t
  end.

(** [l.insert(i, x)] for [i >= 0]: [x] lands before position [i], or at the
    end when the list is shorter. *)
Definition list_insert {A} (i : nat) (x : A) (l : list A) : list A :=
  take i l ++ x :: drop i l.

(** [str(n)] for a natural number. *)
Definition str_of_nat (n : nat) : string :=
  NilZero.string_of_uint (Nat.to_uint n).

(** [enumerate(l, start)] as a list of pairs. *)
Fixpoint enumerate {A} (start : nat) (l : list A) : list (nat * A) :=
  match l with
  | [] => []
  | x :: t => (start, x) :: enumerate (S start) t
  end.

End Py.

(** ** The process environment *)

(** An exception the program can end with. *)
Inductive exn : Type :=
  | TypeError (msg : string)
  | EOFError
  | FileNotFoundError (path : string)
  | FileExistsError (path : string).

(** The effects of a run that are visible from outside, in the order they
    happen. *)
Inductive event : Type :=
  | Print (text : string)             (* print(text): one line on stdout *)
  | Prompt (text : string)            (* the prompt shown by input(text) *)
  | MakeDirs (path : string)          (* os.makedirs(path) *)
  | Open (path : string)              (* open(path, 'w') *)
  | Write (path text : string)        (* f.write(text) on the file at path *)
  | Run (argv : list string).         (* subprocess.run(argv) *)

(** The environment of one run.  Paths are the strings the program builds
    and are compared as such: two spellings of one place ([domains/] and
    [domains], or a path through [..]) are two paths here.  [openssl] is an
    opaque external tool: a call to it is recorded with its arguments, and
    the files it writes itself are not part of [w_files], which holds what
    the program writes and what was there before. *)
Record World : Type := mkWorld {
  w_which : gmap string string;   (* executables on the search path *)
  w_dirs  : gset string;          (* directories that exist *)
  w_files : gmap string string;   (* files that exist, with their text *)
  w_stdin : list string;          (* lines still to be read *)
  w_log   : list event            (* effects so far, oldest first *)
}.

Inductive outcome (A : Type) : Type :=
  | Ok (a : A)
  | Raised (e : exn).
Arguments Ok {A} a.
Arguments Raised {A} e.

(** State and exception monad: an exception keeps the effects done so far. *)
Definition M (A : Type) : Type := World -> outcome A * World.

Definition ret {A} (a : A) : M A := fun w => (Ok a, w).

Definition bind {A B} (m : M A) (k : A -> M B) : M B :=
  fun w => match m w with
           | (Ok a, w') => k a w'
           | (Raised e, w') => (Raised e, w')
           end.

Definition raise {A} (e : exn) : M A := fun w => (Raised e, w).

Declare Scope prog_scope.
Delimit Scope prog_scope with prog.
Bind Scope prog_scope with M.
Notation "x ← y ; z" := (bind y (fun x => z))
  (at level 20, y at level 100, z at level 200, only parsing) : prog_scope.
Notation "x ;; z" := (bind x (fun _ => z))
  (at level 100, z at level 200, only parsing, right associativity)
  : prog_scope.
Local Open Scope prog_scope.

Definition log (e : event) : M unit :=
  fun w => (Ok tt, mkWorld (w_which w) (w_dirs w) (w_files w) (w_stdin w)
                           (w_log w ++ [e])).

(** [print(text)]. *)
Definition print (text : string) : M unit := log (Print text).

(** One line of standard input; end of input raises. *)
Definition read_line : M string :=
  fun w => match w_stdin w with
           | [] => (Raised EOFError, w)
           | line :: rest =>
               (Ok line, mkWorld (w_which w) (w_dirs w) (w_files w) rest
                                 (w_log w))
           end.

(** [input(text)]: show the prompt, then read one line. *)
Definition input (text : string) : M string :=
  log (Prompt text) ;; read_line.

(** [shutil.which(cmd)]. *)
Definition which (cmd : string) : M (option string) :=
  fun w => (Ok (w_which w !! cmd), w).

(** [os.path.exists(path)]. *)
Definition exists_in (w : World) (path : string) : bool :=
  bool_decide (path ∈ w_dirs w) || bool_decide (is_Some (w_files w !! path)).

Definition path_exists (path : string) : M bool :=
  fun w => (Ok (exists_in w path), w).

(** The directories above a path: what precedes each separator. *)
Fixpoint ancestors (pre : string) (path : string) : list string :=
  match path with
  | EmptyString => []
  | String c r =>
      (if Ascii.eqb c "/" && negb (String.eqb pre "") then [pre] else [])
      ++ ancestors (pre +:+ String c EmptyString) r
  end.

(** [os.makedirs(path)]: the directory and the missing ones above it; a
    path that exists raises.  The other ways the call can fail on a real
    file system (a regular file above the path, a name the system refuses)
    are not modelled. *)
Definition makedirs (path : string) : M unit :=
  fun w =>
    if exists_in w path then (Raised (FileExistsError path), w)
    else (Ok tt, mkWorld (w_which w)
                         (w_dirs w ∪ list_to_set (ancestors "" path) ∪ {[path]})
                         (w_files w) (w_stdin w)
                         (w_log w ++ [MakeDirs path])).

(** The directory part of a path: what precedes its last separator. *)
Fixpoint dirname (path : string) : string :=
  match path with
  | EmptyString => EmptyString
  | String c r =>
      if Py.contains "/" r then String c (dirname r) else EmptyString
  end.

(** [open(path, 'w')]: the file is created or emptied; its directory has to
    exist (the empty directory part is the working directory), else the
    call raises [FileNotFoundError].  The other ways the call can fail on a
    real file system (the path is a directory, a regular file stands where
    the directory should be) are not modelled. *)
Definition open_w (path : string) : M string :=
  fun w =>
    if String.eqb (dirname path) "" || bool_decide (dirname path ∈ w_dirs w)
    then (Ok path, mkWorld (w_which w) (w_dirs w) (<[path := ""]> (w_files w))
                           (w_stdin w) (w_log w ++ [Open path]))
    else (Raised (FileNotFoundError path), w).

(** [f.write(text)] on the file opened at [path]. *)
Definition write (path text : string) : M unit :=
  fun w =>
    (Ok tt, mkWorld (w_which w) (w_dirs w)
                    (<[path := default "" (w_files w !! path) +:+ text]>
                       (w_files w))
                    (w_stdin w) (w_log w ++ [Write path text])).

(** [subprocess.run(argv)]: the call is recorded; the exit status is not
    looked at.  A program that cannot be started is not modelled: [main]
    starts [openssl] only after [check_openssl] has found it. *)
Definition subprocess_run (argv : list string) : M unit := log (Run argv).

(** A call with keyword arguments of a function whose parameters are
    [params]: a keyword that names no parameter raises before the body
    runs. *)
Definition call_kw {A} (fname : string) (params : list string)
    (kwargs : list (string * string)) (body : M A) : M A :=
  match List.find (fun kv => negb (Py.list_contains (fst kv) params)) kwargs with
  | Some kv =>
      raise (TypeError (fname +:+ "() got an unexpected keyword argument '"
                        +:+ fst kv +:+ "'"))
  | None => body
  end.

(** [for x in l: body x]. *)
Fixpoint for_each {A} (l : list A) (body : A -> M unit) : M unit :=
  match l with
  | [] => ret tt
  | x :: t => body x ;; for_each t body
  end.

Definition nl : string := String "010" EmptyString.

(** The text of a literal that spans lines: each line and its line end. *)
Fixpoint unlines (l : list string) : string :=
  match l with
  | [] => ""
  | x :: t => x +:+ nl +:+ unlines t
  end.

(** ** The program *)

(** [check_openssl()] *)
Definition check_openssl : M bool :=
  found ← which "openssl";
  match found with
  | None =>
      print "Error: OpenSSL is not installed or not available in system PATH" ;;
      print "Please install OpenSSL and try again" ;;
      ret false
  | Some _ => ret true
  end.

(** [create_root_ca()]: a function without parameters. *)
Definition create_root_ca_params : list string := [].

Definition create_root_ca : M unit :=
  print "Creating root CA certificate..." ;;
  subprocess_run
    ["openssl"; "genrsa"; "-des3"; "-passout"; "pass:1234";
     "-out"; "LocalRootCA.key"; "4096"] ;;
  subprocess_run
    ["openssl"; "req"; "-x509"; "-new"; "-nodes";
     "-key"; "LocalRootCA.key"; "-sha256"; "-days"; "3650";
     "-passin"; "pass:1234";
     "-out"; "LocalRootCA.crt";
     "-subj"; "/C=US/ST=State/L=City/O=Local CA/OU=Development/CN=Local Root CA"] ;;
  subprocess_run
    ["openssl"; "x509"; "-in"; "LocalRootCA.crt";
     "-out"; "LocalRootCA.pem"; "-outform"; "PEM"] ;;
  print (nl +:+ "Root CA created successfully!") ;;
  print "Location: ./LocalRootCA.key, ./LocalRootCA.crt and ./LocalRootCA.pem" ;;
  print "Root CA Key Password: 1234".

(** [create_key(domain)] *)
Definition create_key (domain : string) : M string :=
  let key_file := "domains/" +:+ domain +:+ "/" +:+ domain +:+ ".key" in
  subprocess_run ["openssl"; "genrsa"; "-out"; key_file; "2048"] ;;
  print ("Generated key: " +:+ key_file) ;;
  ret key_file.

(** [create_csr(domain, config_file)] *)
Definition create_csr (domain config_file : string) : M string :=
  let csr_file := "domains/" +:+ domain +:+ "/" +:+ domain +:+ ".csr" in
  subprocess_run
    ["openssl"; "req"; "-new"; "-key";
     "domains/" +:+ domain +:+ "/" +:+ domain +:+ ".key";
     "-out"; csr_file; "-config"; config_file] ;;
  print ("Generated CSR: " +:+ csr_file) ;;
  ret csr_file.

(** [sign_certificate(domain, config_file)] *)
Definition sign_certificate (domain config_file : string) : M string :=
  let crt_file := "domains/" +:+ domain +:+ "/" +:+ domain +:+ ".crt" in
  subprocess_run
    ["openssl"; "x509"; "-req"; "-in";
     "domains/" +:+ domain +:+ "/" +:+ domain +:+ ".csr";
     "-CA"; "LocalRootCA.crt"; "-CAkey"; "LocalRootCA.key";
     "-passin"; "pass:1234";
     "-CAcreateserial"; "-out"; crt_file; "-days"; "365";
     "-sha256"; "-extfile"; config_file; "-extensions"; "v3_req"] ;;
  print ("Generated Certificate: " +:+ crt_file) ;;
  ret crt_file.

(** The text written first by [create_openssl_config]: the literal of
    lines 73-96 with the domain filled in. *)
Definition config_head (domain : string) : string :=
  unlines
    [""; "[ req ]";
     "default_bits       = 2048";
     "distinguished_name = req_distinguished_name";
     "req_extensions     = req_ext";
     "x509_extensions    = v3_req";
     "prompt             = no";
     "";
     "[ req_distinguished_name ]";
     "C  = US";
     "ST = State";
     "L  = City";
     "O  = Organization";
     "OU = Organizational Unit";
     "CN = " +:+ domain;
     "";
     "[ req_ext ]";
     "subjectAltName = @alt_names";
     "";
     "[ v3_req ]";
     "subjectAltName = @alt_names";
     "";
     "[ alt_names ]"].

(** The text of one pass of the loop of lines 97-98. *)
Definition dns_entry (i : nat) (alt_name : string) : string :=
  "DNS." +:+ Py.str_of_nat i +:+ " = " +:+ alt_name +:+ nl.

(** [create_openssl_config(domain, alt_names)] *)
Definition create_openssl_config (domain : string) (alt_names : list string)
    : M string :=
  let dir_domain := Py.replace "*." "" domain in
  let config_file := "domains/" +:+ dir_domain +:+ "/openssl.cnf" in
  f ← open_w config_file;
  write f (config_head domain) ;;
  for_each (Py.enumerate 1 alt_names)
           (fun '(i, alt_name) => write f (dns_entry i alt_name)) ;;
  print ("Generated OpenSSL config: " +:+ config_file) ;;
  ret config_file.

(** The banner of lines 107-116. *)
Definition banner : string :=
  unlines
    [""; "Certificate Generator with Wildcard Support";
     "-----------------------------------------";
     "For wildcard certificates, use the following format:";
     "- Main domain: example.com";
     "- To include wildcard: *.example.com";
     "Example alternate names: ";
     "- *.subdomain.example.com";
     "- specific.example.com"].

Definition root_ca_prompt : string :=
  "Root CA certificate not found. Do you want to create it? (y/n): ".

Definition domain_prompt : string :=
  "Enter the main domain (e.g., example.com or *.example.com): ".

(** Line 119: the three files, tested left to right as [and] does. *)
Definition root_ca_present : M bool :=
  k ← path_exists "LocalRootCA.key";
  if k then
    c ← path_exists "LocalRootCA.crt";
    if c then path_exists "LocalRootCA.pem" else ret false
  else ret false.

(** Line 140: the comprehension over the segments of the input. *)
Definition parse_alt_names (alt_names : string) : list string :=
  flat_map (fun name =>
              if negb (String.eqb (Py.strip name) "") then [Py.strip name]
              else [])
           (Py.split "," alt_names).

(** Lines 141-142: the main domain goes first unless it is in the list. *)
Definition add_main_domain (domain : string) (alt_names_list : list string)
    : list string :=
  if negb (Py.list_contains domain alt_names_list)
  then Py.list_insert 0 domain alt_names_list
  else alt_names_list.

(** [main()] from line 127 on: what follows the root CA check. *)
Definition main_domain : M unit :=
  line ← input domain_prompt;
  let domain := Py.strip line in
  if String.eqb domain "" then
    print "Domain cannot be empty!"
  else
    print (nl +:+ "Enter alternate domain names (comma-separated)") ;;
    print "Examples:" ;;
    print "- For wildcard subdomains: *.app.example.com" ;;
    print "- For specific domains: admin.example.com" ;;
    line ← input "Alternate names: ";
    let alt_names := Py.strip line in
    let alt_names_list := add_main_domain domain (parse_alt_names alt_names) in
    d ← path_exists "domains";
    (if negb d then
       makedirs "domains" ;;
       print "Created directory: domains"
     else ret tt) ;;
    let dir_domain := Py.replace "*." "" domain in
    let domain_dir := "domains/" +:+ dir_domain in
    dd ← path_exists domain_dir;
    (if negb dd then
       makedirs domain_dir ;;
       print ("Created directory: " +:+ domain_dir)
     else ret tt) ;;
    config_file ← create_openssl_config domain alt_names_list;
    create_key dir_domain ;;
    create_csr dir_domain config_file ;;
    sign_certificate dir_domain config_file ;;
    print (nl +:+ "Certificate generation complete!") ;;
    print (nl +:+ "Usage Instructions:") ;;
    print "1. Your certificate files are in the 'domains' directory" ;;
    if Py.contains "*" domain then
      print "2. This wildcard certificate will work for all subdomains at the specified level" ;;
      print "   For example, if your domain is *.example.com, it will work for:" ;;
      print "   - test.example.com" ;;
      print "   - dev.example.com" ;;
      print "   But NOT for: sub.test.example.com (different level)"
    else ret tt.

(** [main()] *)
Definition main : M unit :=
  ok ← check_openssl;
  if negb ok then ret tt
  else
    print banner ;;
    present ← root_ca_present;
    if negb present then
      line ← input root_ca_prompt;
      let response := Py.lower (Py.strip line) in
      if String.eqb response "y" then
        call_kw "create_root_ca" create_root_ca_params
                [("prefixName", "Local")] create_root_ca ;;
        main_domain
      else
        print "Cannot proceed without root CA certificate."
    else main_domain.

(** ** Notions used to state the properties *)

Definition nl_char : ascii := "010"%char.

(** The character [c] occurs in [s]. *)
Fixpoint has_char (c : ascii) (s : string) : bool :=
  match s with
  | EmptyString => false
  | String a r => Ascii.eqb a c || has_char c r
  end.

(** The lines of a text, and those that are [DNS.] entries. *)
Definition file_lines (text : string) : list string := Py.split nl_char text.

Definition dns_lines (text : string) : list string :=
  filter (fun l => Py.startswith "DNS." l = true) (file_lines text).

(** The entries expected for a list of names: [DNS.<n> = <name>], numbered
    from [start] in the order of the list. *)
Fixpoint numbered_from (start : nat) (names : list string) : list string :=
  match names with
  | [] => []
  | a :: t =>
      ("DNS." +:+ Py.str_of_nat start +:+ " = " +:+ a)
      :: numbered_from (S start) t
  end.

(** The alternate names as the specification words them, written without
    the string methods of the program.  White space is the list of code
    points that Python strips.  Stripping drops it from the front of the
    text and, on the reversed text, from its back. *)
Definition spec_space (c : ascii) : bool :=
  bool_decide
    (nat_of_ascii c ∈ [9; 10; 11; 12; 13; 28; 29; 30; 31; 32; 133; 160]).

Fixpoint drop_space (l : list ascii) : list ascii :=
  match l with
  | c :: r => if spec_space c then drop_space r else l
  | [] => []
  end.

Definition spec_strip (s : string) : string :=
  String.string_of_list_ascii
    (rev (drop_space (rev (drop_space (String.list_ascii_of_string s))))).

(** The segments between the separators: [cur] holds, last character first,
    the segment that is being read; a separator closes it, and so does the
    end of the text. *)
Fixpoint segments (sep : ascii) (cur l : list ascii) : list string :=
  match l with
  | [] => [String.string_of_list_ascii (rev cur)]
  | c :: r =>
      if Ascii.eqb c sep
      then String.string_of_list_ascii (rev cur) :: segments sep [] r
      else segments sep (c :: cur) r
  end.

Definition spec_split (sep : ascii) (s : string) : list string :=
  segments sep [] (String.list_ascii_of_string s).

(** Split on commas, strip every segment, drop the segments that are empty
    after that. *)
Definition spec_alt_names (line : string) : list string :=
  filter (fun s => s ≠ "") (map spec_strip (spec_split "," line)).

(** The three root CA files as line 119 tests them. *)
Definition root_ca_files (w : World) : bool :=
  exists_in w "LocalRootCA.key" && exists_in w "LocalRootCA.crt"
  && exists_in w "LocalRootCA.pem".

(** The effects of a run that make or change something on disk or start
    the external tool. *)
Definition creates (e : event) : bool :=
  match e with
  | MakeDirs _ | Open _ | Write _ _ | Run _ => true
  | Print _ | Prompt _ => false
  end.

(** An environment for examples: [openssl] is installed, the working
    directory holds the root CA files or nothing, and [lines] is what the
    operator types. *)
Definition example_world (have_ca : bool) (lines : list string) : World :=
  mkWorld {[ "openssl" := "/usr/bin/openssl" ]} ∅
          (if have_ca
           then {[ "LocalRootCA.key" := "key"; "LocalRootCA.crt" := "crt";
                   "LocalRootCA.pem" := "pem" ]}
           else ∅)
          lines [].

(** The exception Python raises for the keyword of line 122. *)
Definition unexpected_keyword : exn :=
  TypeError "create_root_ca() got an unexpected keyword argument 'prefixName'".

(** The [openssl] invocations among a list of effects. *)
Definition runs (evs : list event) : list (list string) :=
  omap (fun e => match e with Run argv => Some argv | _ => None end) evs.

(** What lines 145-147 and 153-155 leave behind for a directory [path]:
    nothing when it exists, else the new directory and two effects. *)
Definition ensure_events (w : World) (path msg : string) : list event :=
  if exists_in w path then [] else [MakeDirs path; Print msg].

Definition after_ensure (path msg : string) (w : World) : World :=
  if exists_in w path then w
  else mkWorld (w_which w)
               (w_dirs w ∪ list_to_set (ancestors "" path) ∪ {[path]})
               (w_files w) (w_stdin w)
               (w_log w ++ [MakeDirs path; Print msg]).

(** The value that follows [flag] in an argument vector. *)
Fixpoint arg_after (flag : string) (argv : list string) : option string :=
  match argv with
  | a :: ((v :: _) as t) =>
      if String.eqb a flag then Some v else arg_after flag t
  | _ => None
  end.

(** What a run may change between two worlds: the search path stays, the
    directories only grow, and a file outside [domains/] keeps its text or
    its absence. *)
Definition outside_domains_kept (w w' : World) : Prop :=
  w_which w' = w_which w
  ∧ w_dirs w ⊆ w_dirs w'
  ∧ ∀ path, Py.startswith "domains/" path = false →
            w_files w' !! path = w_files w !! path.

(** Nothing on disk differs between two worlds. *)
Definition disk_kept (w w' : World) : Prop :=
  w_dirs w' = w_dirs w ∧ w_files w' = w_files w.

(** The [openssl] calls of the three issuance steps of lines 161-163. *)
Definition issuance_runs (dir_domain config_file : string)
    : list (list string) :=
  runs (w_log (snd ((create_key dir_domain ;;
                     create_csr dir_domain config_file ;;
                     sign_certificate dir_domain config_file)
                      (mkWorld ∅ ∅ ∅ [] [])))).

(** The [openssl] calls of [create_root_ca], lines 17-35. *)
Definition root_ca_runs : list (list string) :=
  runs (w_log (snd (create_root_ca (mkWorld ∅ ∅ ∅ [] [])))).

(** What [main] may ask of its environment for a directory name: to make
    the directory [domains] or [domains/<dir_domain>], to open and write
    [domains/<dir_domain>/openssl.cnf], and to start one of the three
    [openssl] commands of lines 43, 49-52 and 58-64 for that name. *)
Definition main_effect (dir_domain : string) (e : event) : Prop :=
  match e with
  | MakeDirs path => path = "domains" ∨ path = "domains/" +:+ dir_domain
  | Open path | Write path _ =>
      path = "domains/" +:+ dir_domain +:+ "/openssl.cnf"
  | Run argv =>
      argv
      ∈ [["openssl"; "genrsa"; "-out";
          "domains/" +:+ dir_domain +:+ "/" +:+ dir_domain +:+ ".key";
          "2048"];
         ["openssl"; "req"; "-new"; "-key";
          "domains/" +:+ dir_domain +:+ "/" +:+ dir_domain +:+ ".key";
          "-out";
          "domains/" +:+ dir_domain +:+ "/" +:+ dir_domain +:+ ".csr";
          "-config"; "domains/" +:+ dir_domain +:+ "/openssl.cnf"];
         ["openssl"; "x509"; "-req"; "-in";
          "domains/" +:+ dir_domain +:+ "/" +:+ dir_domain +:+ ".csr";
          "-CA"; "LocalRootCA.crt"; "-CAkey"; "LocalRootCA.key";
          "-passin"; "pass:1234"; "-CAcreateserial"; "-out";
          "domains/" +:+ dir_domain +:+ "/" +:+ dir_domain +:+ ".crt";
          "-days"; "365"; "-sha256"; "-extfile";
          "domains/" +:+ dir_domain +:+ "/openssl.cnf";
          "-extensions"; "v3_req"]]
  | Print _ | Prompt _ => True
  end.

(** The effects a run added to the log. *)
Definition new_events (w w' : World) : list event :=
  drop (length (w_log w)) (w_log w').

Ltac proj := cbn [w_which w_dirs w_files w_stdin w_log].

(** ** Strings *)

Example strip_blanks : Py.strip "  a b	 " = "a b".
Proof. reflexivity. Qed.

Example split_keeps_empty : Py.split "," "a, ,b," = ["a"; " "; "b"; ""].
Proof. reflexivity. Qed.

Example split_of_empty : Py.split "," "" = [""].
Proof. reflexivity. Qed.

Example replace_every_marker : Py.replace "*." "" "*.a*.b" = "ab".
Proof. reflexivity. Qed.

Example replace_one_scan : Py.replace "*." "" "**..x" = "*.x".
Proof. reflexivity. Qed.

Example replace_resumes_after : Py.replace "ab" "X" "aababb" = "aXXb".
Proof. reflexivity. Qed.

Example lower_letters : Py.lower "Y eS" = "y es".
Proof. reflexivity. Qed.

Example str_of_twelve : Py.str_of_nat 12 = "12".
Proof. reflexivity. Qed.

Example insert_at_front : Py.list_insert 0 "d" ["a"; "b"] = ["d"; "a"; "b"].
Proof. reflexivity. Qed.

Lemma str_app_cons c s t : String c s +:+ t = String c (s +:+ t).
Proof. reflexivity. Qed.

Lemma str_app_nil_l s : "" +:+ s = s.
Proof. reflexivity. Qed.

Lemma str_app_nil_r s : s +:+ "" = s.
Proof. induction s as [|c s IH]; [done|]. by rewrite str_app_cons, IH. Qed.

Lemma str_app_assoc s t u : (s +:+ t) +:+ u = s +:+ t +:+ u.
Proof. induction s as [|c s IH]; [done|]. by rewrite !str_app_cons, IH. Qed.

Lemma has_char_app c s t : has_char c (s +:+ t) = has_char c s || has_char c t.
Proof.
  induction s as [|a s IH]; [done|].
  rewrite str_app_cons. simpl. rewrite IH. by destruct (Ascii.eqb a c).
Qed.

Lemma split_nonempty sep s : Py.split sep s ≠ [].
Proof.
  destruct s as [|c r]; simpl; [done|].
  destruct (Ascii.eqb c sep); [done|]. by destruct (Py.split sep r).
Qed.

(** A text without the separator is one segment. *)
Lemma split_no_sep sep s : has_char sep s = false → Py.split sep s = [s].
Proof.
  induction s as [|c r IH]; simpl; [done|]. intros H.
  apply orb_false_iff in H as [Hc Hr]. rewrite Hc, (IH Hr). done.
Qed.

(** The first separator ends the first segment. *)
Lemma split_app_sep sep a b :
  has_char sep a = false →
  Py.split sep (a +:+ String sep b) = a :: Py.split sep b.
Proof.
  induction a as [|c r IH]; intros H.
  - rewrite str_app_nil_l. simpl. by rewrite Ascii.eqb_refl.
  - simpl in H. apply orb_false_iff in H as [Hc Hr].
    rewrite str_app_cons. simpl. rewrite Hc, (IH Hr). done.
Qed.

(** *** [replace] with the wildcard marker *)

Lemma replace_marker_unfold s :
  Py.replace "*." "" s = Py.replace_scan "*." "" 0 s.
Proof. reflexivity. Qed.

(** A leading marker is dropped and the scan goes on behind it. *)
Lemma replace_marker_head rest :
  Py.replace "*." "" ("*." +:+ rest) = Py.replace "*." "" rest.
Proof. rewrite !replace_marker_unfold. reflexivity. Qed.

(** Without an asterisk there is nothing to replace. *)
Lemma replace_marker_no_star s :
  has_char "*" s = false → Py.replace "*." "" s = s.
Proof.
  rewrite replace_marker_unfold.
  induction s as [|c r IH]; [done|]. intros H.
  simpl in H. apply orb_false_iff in H as [Hc Hr].
  cbn [Py.replace_scan Py.startswith].
  rewrite Ascii.eqb_sym, Hc. cbn [andb]. by rewrite (IH Hr).
Qed.

(** Without an occurrence of the marker there is nothing to replace. *)
Lemma replace_marker_absent s :
  Py.contains "*." s = false → Py.replace "*." "" s = s.
Proof.
  rewrite replace_marker_unfold.
  induction s as [|c r IH]; [done|]. intros H.
  cbn [Py.contains] in H. apply orb_false_iff in H as [Hc Hr].
  cbn [Py.replace_scan]. rewrite Hc. by rewrite (IH Hr).
Qed.

(** *** Lines of a text *)

Lemma file_lines_unlines ls rest :
  Forall (fun l => has_char nl_char l = false) ls →
  file_lines (unlines ls +:+ rest) = ls ++ file_lines rest.
Proof.
  induction 1 as [|l ls Hl _ IH]; [done|].
  cbn [unlines]. rewrite !str_app_assoc. unfold nl at 1. rewrite str_app_cons, str_app_nil_l.
  unfold file_lines in *. rewrite (split_app_sep _ _ _ Hl), IH. done.
Qed.

Lemma digits_no_nl d : has_char nl_char (NilEmpty.string_of_uint d) = false.
Proof. induction d; simpl; done. Qed.

Lemma str_of_nat_no_nl n : has_char nl_char (Py.str_of_nat n) = false.
Proof.
  unfold Py.str_of_nat, NilZero.string_of_uint.
  destruct (Nat.to_uint n); try apply digits_no_nl. done.
Qed.

Lemma numbered_from_no_nl names start :
  Forall (fun a => has_char nl_char a = false) names →
  Forall (fun l => has_char nl_char l = false) (numbered_from start names).
Proof.
  intros H. revert start. induction H as [|a t Ha _ IH]; intros start; [constructor|].
  cbn [numbered_from]. constructor; [|apply IH].
  rewrite !has_char_app, str_of_nat_no_nl, Ha. done.
Qed.

Lemma filter_dns_numbered names start :
  filter (fun l => Py.startswith "DNS." l = true) (numbered_from start names)
  = numbered_from start names.
Proof.
  revert start. induction names as [|a t IH]; intros start; [done|].
  cbn [numbered_from]. rewrite filter_cons_True by done. by rewrite IH.
Qed.

(** What the loop of lines 97-98 appends is the expected entries, each
    with its line end. *)
Lemma entries_unlines names start :
  foldr (fun '(i, a) acc => dns_entry i a +:+ acc) ""
        (Py.enumerate start names)
  = unlines (numbered_from start names).
Proof.
  revert start. induction names as [|a t IH]; intros start; [done|].
  cbn [Py.enumerate foldr numbered_from unlines]. rewrite IH.
  unfold dns_entry. by rewrite !str_app_assoc.
Qed.

Lemma config_head_lines domain names :
  has_char nl_char domain = false →
  Forall (fun a => has_char nl_char a = false) names →
  dns_lines (config_head domain +:+ unlines (numbered_from 1 names))
  = numbered_from 1 names.
Proof.
  intros Hd Hn. unfold dns_lines, config_head.
  rewrite file_lines_unlines.
  - rewrite <- (str_app_nil_r (unlines (numbered_from 1 names))).
    rewrite file_lines_unlines by by apply numbered_from_no_nl.
    rewrite !filter_app, filter_dns_numbered.
    match goal with
    | |- filter ?P ?hd ++ _ ++ filter ?P ?tl = _ =>
        change (filter P hd) with (@nil string);
        change (filter P tl) with (@nil string)
    end.
    by rewrite app_nil_l, app_nil_r.
  - repeat (constructor; [first [done | by rewrite has_char_app, Hd] |]).
    constructor.
Qed.

(** ** Running the program *)

Lemma print_run text w :
  print text w
  = (Ok tt, mkWorld (w_which w) (w_dirs w) (w_files w) (w_stdin w)
                    (w_log w ++ [Print text])).
Proof. reflexivity. Qed.

Lemma input_run text w line rest :
  w_stdin w = line :: rest →
  input text w
  = (Ok line, mkWorld (w_which w) (w_dirs w) (w_files w) rest
                      (w_log w ++ [Prompt text])).
Proof. intros H. unfold input, bind, read_line, log. simpl. by rewrite H. Qed.

Lemma check_openssl_found w p :
  w_which w !! "openssl" = Some p → check_openssl w = (Ok true, w).
Proof. intros H. unfold check_openssl, bind, which. by rewrite H. Qed.

Lemma root_ca_present_run w : root_ca_present w = (Ok (root_ca_files w), w).
Proof.
  unfold root_ca_present, root_ca_files, bind, path_exists.
  by repeat (destruct (exists_in w _)).
Qed.

(** The loop of lines 97-98 appends one entry per pair and writes nothing
    else. *)
Lemma for_each_write f entries : ∀ w t0,
  w_files w !! f = Some t0 →
  for_each entries (fun '(i, a) => write f (dns_entry i a)) w
  = (Ok tt,
     mkWorld (w_which w) (w_dirs w)
             (<[f := t0 +:+ foldr (fun '(i, a) acc => dns_entry i a +:+ acc)
                                   "" entries]> (w_files w))
             (w_stdin w)
             (w_log w ++ map (fun '(i, a) => Write f (dns_entry i a)) entries)).
Proof.
  induction entries as [|[i a] t IH]; intros w t0 H.
  - cbn [for_each foldr map]. unfold ret. destruct w as [wh d fs si lg].
    simpl in *. rewrite str_app_nil_r, (insert_id _ _ _ H), app_nil_r. done.
  - cbn [for_each foldr map]. unfold bind at 1. unfold write at 1.
    rewrite H. cbn [default].
    erewrite IH by (cbn [w_files]; apply lookup_insert_eq).
    cbn [w_which w_dirs w_files w_stdin w_log].
    rewrite insert_insert_eq, str_app_assoc, <- app_assoc. done.
Qed.

Lemma contains_sep_config p : Py.contains "/" (p +:+ "/openssl.cnf") = true.
Proof.
  induction p as [|c r IH]; [done|].
  rewrite str_app_cons. cbn [Py.contains]. rewrite IH. apply orb_true_r.
Qed.

Lemma dirname_config p : dirname (p +:+ "/openssl.cnf") = p.
Proof.
  induction p as [|c r IH]; [done|].
  rewrite str_app_cons. cbn [dirname]. by rewrite contains_sep_config, IH.
Qed.

(** [create_openssl_config] in a world that has the domain's directory:
    the file it opens, the text it leaves there and what it returns. *)
Lemma create_openssl_config_run domain alt_names w :
  "domains/" +:+ Py.replace "*." "" domain ∈ w_dirs w →
  let path := "domains/" +:+ Py.replace "*." "" domain +:+ "/openssl.cnf" in
  create_openssl_config domain alt_names w
  = (Ok path,
     mkWorld (w_which w) (w_dirs w)
       (<[path := config_head domain +:+ unlines (numbered_from 1 alt_names)]>
          (w_files w))
       (w_stdin w)
       (w_log w
        ++ Open path :: Write path (config_head domain)
           :: map (fun '(i, a) => Write path (dns_entry i a))
                  (Py.enumerate 1 alt_names)
        ++ [Print ("Generated OpenSSL config: " +:+ path)])).
Proof.
  intros Hdir path. unfold create_openssl_config. fold path.
  unfold bind at 1. unfold open_w.
  assert (dirname path = "domains/" +:+ Py.replace "*." "" domain) as ->.
  { unfold path. rewrite <- str_app_assoc. apply dirname_config. }
  rewrite (bool_decide_eq_true_2 _ Hdir), orb_true_r.
  unfold bind at 1. unfold write at 1. cbn [w_files w_which w_dirs w_stdin w_log].
  rewrite lookup_insert_eq. cbn [default]. rewrite str_app_nil_l.
  unfold bind at 1.
  erewrite for_each_write by (cbn [w_files]; apply lookup_insert_eq).
  cbn [w_files w_which w_dirs w_stdin w_log].
  unfold bind at 1. rewrite print_run. cbn [w_files w_which w_dirs w_stdin w_log].
  unfold ret. rewrite !insert_insert_eq, entries_unlines.
  rewrite <- !app_assoc. done.
Qed.

(** *** [strip] and [split] *)

Lemma lstrip_idem s : Py.lstrip (Py.lstrip s) = Py.lstrip s.
Proof.
  induction s as [|c r IH]; [done|]. simpl.
  destruct (Py.isspace c) eqn:E; [done|]. simpl. by rewrite E.
Qed.

Lemma lstrip_rstrip s : Py.lstrip (Py.rstrip s) = Py.rstrip (Py.lstrip s).
Proof.
  induction s as [|c r IH]; [done|].
  cbn [Py.lstrip]. destruct (Py.isspace c) eqn:E.
  - rewrite <- IH. cbn [Py.rstrip]. destruct (Py.rstrip r) as [|a b].
    + by rewrite E.
    + cbn [Py.lstrip]. by rewrite E.
  - cbn [Py.rstrip]. destruct (Py.rstrip r) as [|a b].
    + rewrite E. cbn [Py.lstrip]. by rewrite E.
    + cbn [Py.lstrip]. by rewrite E.
Qed.

(** Stripping on the left only touches the first segment. *)
Lemma split_lstrip sep s :
  Py.isspace sep = false →
  Py.split sep (Py.lstrip s)
  = match Py.split sep s with
    | h :: t => Py.lstrip h :: t
    | [] => []
    end.
Proof.
  intros Hsep. induction s as [|c r IH]; [done|].
  cbn [Py.lstrip]. destruct (Py.isspace c) eqn:E.
  - rewrite IH. cbn [Py.split].
    destruct (Ascii.eqb c sep) eqn:Ec.
    { apply Ascii.eqb_eq in Ec. congruence. }
    destruct (Py.split sep r) as [|h t] eqn:Es.
    { by destruct (split_nonempty sep r). }
    cbn [Py.lstrip]. by rewrite E.
  - cbn [Py.split]. destruct (Ascii.eqb c sep); [done|].
    destruct (Py.split sep r) as [|h t]; cbn [Py.lstrip]; by rewrite E.
Qed.

(** Stripping on the right changes the segments only up to what [rstrip]
    removes from each of them. *)
Lemma split_rstrip sep s :
  Py.isspace sep = false →
  Forall2 (fun a b => Py.rstrip a = Py.rstrip b)
          (Py.split sep (Py.rstrip s)) (Py.split sep s).
Proof.
  intros Hsep. induction s as [|c r IH]; [by repeat constructor|].
  cbn [Py.rstrip]. destruct (Py.rstrip r) as [|a b] eqn:Er.
  - (* [r] is blank: it is one segment that strips to nothing *)
    cbn [Py.split] in IH. inversion IH as [|x h l t Hh Ht Hx Hl]; subst.
    inversion Ht; subst. cbn [Py.rstrip] in Hh.
    destruct (Py.isspace c) eqn:E.
    + cbn [Py.split]. destruct (Ascii.eqb c sep) eqn:Ec.
      { apply Ascii.eqb_eq in Ec. congruence. }
      rewrite <- Hl. repeat constructor. cbn [Py.rstrip]. by rewrite <- Hh, E.
    + cbn [Py.split]. destruct (Ascii.eqb c sep) eqn:Ec.
      * rewrite <- Hl. repeat constructor. done.
      * rewrite <- Hl. repeat constructor. cbn [Py.rstrip]. by rewrite <- Hh, E.
  - remember (String a b) as r' eqn:Hr'.
    cbn [Py.split]. destruct (Ascii.eqb c sep).
    + constructor; [done|]. exact IH.
    + destruct (Py.split sep r') as [|h' t'] eqn:E1.
      { by destruct (split_nonempty sep r'). }
      destruct (Py.split sep r) as [|h t] eqn:E2.
      { by destruct (split_nonempty sep r). }
      inversion IH as [|x y l l' Hxy Hll]; subst. constructor; [|done].
      cbn [Py.rstrip]. by rewrite Hxy.
Qed.

Lemma strip_of_lstrip s : Py.strip (Py.lstrip s) = Py.strip s.
Proof. unfold Py.strip. by rewrite lstrip_idem. Qed.

Lemma strip_of_rstrip_eq a b :
  Py.rstrip a = Py.rstrip b → Py.strip a = Py.strip b.
Proof. unfold Py.strip. rewrite <- !lstrip_rstrip. by intros ->. Qed.

(** The comprehension of line 140 looks at each segment only through
    [strip]. *)
Lemma parse_segments_strip l1 l2 :
  Forall2 (fun a b => Py.strip a = Py.strip b) l1 l2 →
  flat_map (fun name =>
              if negb (String.eqb (Py.strip name) "") then [Py.strip name]
              else []) l1
  = flat_map (fun name =>
                if negb (String.eqb (Py.strip name) "") then [Py.strip name]
                else []) l2.
Proof.
  induction 1 as [|a b l1 l2 Hab _ IH]; [done|].
  cbn [flat_map]. by rewrite Hab, IH.
Qed.

Lemma parse_segments_filter l :
  flat_map (fun name =>
              if negb (String.eqb (Py.strip name) "") then [Py.strip name]
              else []) l
  = filter (fun s => s ≠ "") (map Py.strip l).
Proof.
  induction l as [|a l IH]; [done|].
  cbn [flat_map map]. rewrite IH.
  destruct (String.eqb (Py.strip a) "") eqn:E; cbn [negb].
  - apply String.eqb_eq in E. rewrite filter_cons_False; [done|]. by intros [].
  - apply String.eqb_neq in E. by rewrite filter_cons_True.
Qed.

(** *** The driver up to the root CA check *)

(** The call of line 122 names a parameter [create_root_ca] does not have. *)
Lemma create_root_ca_call_raises w :
  call_kw "create_root_ca" create_root_ca_params [("prefixName", "Local")]
          create_root_ca w
  = (Raised unexpected_keyword, w).
Proof. reflexivity. Qed.

(** [main] when the root CA files are not all there: the banner, the
    prompt, and then one of the two branches of line 121. *)
Lemma main_without_root_ca w p line rest :
  w_which w !! "openssl" = Some p →
  root_ca_files w = false →
  w_stdin w = line :: rest →
  main w
  = if String.eqb (Py.lower (Py.strip line)) "y"
    then (Raised unexpected_keyword,
          mkWorld (w_which w) (w_dirs w) (w_files w) rest
                  (w_log w ++ [Print banner; Prompt root_ca_prompt]))
    else (Ok tt,
          mkWorld (w_which w) (w_dirs w) (w_files w) rest
                  (w_log w ++ [Print banner; Prompt root_ca_prompt;
                               Print "Cannot proceed without root CA certificate."])).
Proof.
  intros Hw Hca Hin. unfold main.
  unfold bind at 1. rewrite (check_openssl_found _ _ Hw). cbn [negb].
  unfold bind at 1. rewrite print_run.
  unfold bind at 1. rewrite root_ca_present_run.
  assert (∀ ws, w_dirs ws = w_dirs w → w_files ws = w_files w →
                root_ca_files ws = false) as Hca'.
  { intros ws Hd Hf. rewrite <- Hca. unfold root_ca_files, exists_in.
    by rewrite Hd, Hf. }
  rewrite Hca' by done. cbn [negb].
  unfold bind at 1. erewrite input_run by (cbn [w_stdin]; exact Hin).
  cbn [w_which w_dirs w_files w_stdin w_log].
  destruct (String.eqb (Py.lower (Py.strip line)) "y").
  - unfold bind at 1. rewrite create_root_ca_call_raises.
    by rewrite <- app_assoc.
  - rewrite print_run. cbn [w_which w_dirs w_files w_stdin w_log].
    by rewrite <- !app_assoc.
Qed.

(** [main] when the root CA files are there goes on with the domain. *)
Lemma main_with_root_ca w p :
  w_which w !! "openssl" = Some p →
  root_ca_files w = true →
  main w
  = main_domain (mkWorld (w_which w) (w_dirs w) (w_files w) (w_stdin w)
                         (w_log w ++ [Print banner])).
Proof.
  intros Hw Hca. unfold main.
  unfold bind at 1. rewrite (check_openssl_found _ _ Hw). cbn [negb].
  unfold bind at 1. rewrite print_run.
  unfold bind at 1. rewrite root_ca_present_run.
  assert (∀ ws, w_dirs ws = w_dirs w → w_files ws = w_files w →
                root_ca_files ws = true) as Hca'.
  { intros ws Hd Hf. rewrite <- Hca. unfold root_ca_files, exists_in.
    by rewrite Hd, Hf. }
  rewrite Hca' by done. done.
Qed.

(** [main_domain] on an empty domain. *)
Lemma main_domain_empty w line rest :
  w_stdin w = line :: rest →
  Py.strip line = "" →
  main_domain w
  = (Ok tt, mkWorld (w_which w) (w_dirs w) (w_files w) rest
                    (w_log w ++ [Prompt domain_prompt;
                                 Print "Domain cannot be empty!"])).
Proof.
  intros Hin He. unfold main_domain.
  unfold bind at 1. rewrite (input_run _ _ _ _ Hin). rewrite He.
  cbn [String.eqb]. rewrite print_run.
  cbn [w_which w_dirs w_files w_stdin w_log]. by rewrite <- app_assoc.
Qed.

(** *** The driver from the domain prompt on *)

Lemma ensure_run path msg w :
  (if negb (exists_in w path)
   then bind (makedirs path) (fun _ => print msg)
   else ret tt) w
  = (Ok tt, after_ensure path msg w).
Proof.
  unfold after_ensure. destruct (exists_in w path) eqn:E; cbn [negb]; [done|].
  unfold bind, makedirs. rewrite E, print_run. proj.
  by rewrite <- app_assoc.
Qed.

Lemma after_ensure_same path msg w :
  w_which (after_ensure path msg w) = w_which w
  ∧ w_files (after_ensure path msg w) = w_files w
  ∧ w_stdin (after_ensure path msg w) = w_stdin w
  ∧ w_dirs w ⊆ w_dirs (after_ensure path msg w)
  ∧ w_log (after_ensure path msg w) = w_log w ++ ensure_events w path msg.
Proof.
  unfold after_ensure, ensure_events. destruct (exists_in w path); proj.
  - by rewrite app_nil_r.
  - repeat split; try done. set_solver.
Qed.

Lemma runs_ensure_events w path msg : runs (ensure_events w path msg) = [].
Proof. unfold ensure_events. by destruct (exists_in w path). Qed.

Lemma runs_writes path (entries : list (nat * string)) :
  runs (map (fun '(i, a) => Write path (dns_entry i a)) entries) = [].
Proof. induction entries as [|[i a] t IH]; [done|]. exact IH. Qed.

Lemma runs_app evs1 evs2 : runs (evs1 ++ evs2) = runs evs1 ++ runs evs2.
Proof. apply omap_app. Qed.

Lemma create_key_run domain w :
  create_key domain w
  = (Ok ("domains/" +:+ domain +:+ "/" +:+ domain +:+ ".key"),
     mkWorld (w_which w) (w_dirs w) (w_files w) (w_stdin w)
       (w_log w
        ++ [Run ["openssl"; "genrsa"; "-out";
                 "domains/" +:+ domain +:+ "/" +:+ domain +:+ ".key"; "2048"];
            Print ("Generated key: "
                   +:+ "domains/" +:+ domain +:+ "/" +:+ domain +:+ ".key")])).
Proof. unfold create_key, bind, subprocess_run, print, log, ret. proj. by rewrite <- app_assoc. Qed.

Lemma create_csr_run domain config_file w :
  create_csr domain config_file w
  = (Ok ("domains/" +:+ domain +:+ "/" +:+ domain +:+ ".csr"),
     mkWorld (w_which w) (w_dirs w) (w_files w) (w_stdin w)
       (w_log w
        ++ [Run ["openssl"; "req"; "-new"; "-key";
                 "domains/" +:+ domain +:+ "/" +:+ domain +:+ ".key";
                 "-out"; "domains/" +:+ domain +:+ "/" +:+ domain +:+ ".csr";
                 "-config"; config_file];
            Print ("Generated CSR: "
                   +:+ "domains/" +:+ domain +:+ "/" +:+ domain +:+ ".csr")])).
Proof. unfold create_csr, bind, subprocess_run, print, log, ret. proj. by rewrite <- app_assoc. Qed.

Lemma sign_certificate_run domain config_file w :
  sign_certificate domain config_file w
  = (Ok ("domains/" +:+ domain +:+ "/" +:+ domain +:+ ".crt"),
     mkWorld (w_which w) (w_dirs w) (w_files w) (w_stdin w)
       (w_log w
        ++ [Run ["openssl"; "x509"; "-req"; "-in";
                 "domains/" +:+ domain +:+ "/" +:+ domain +:+ ".csr";
                 "-CA"; "LocalRootCA.crt"; "-CAkey"; "LocalRootCA.key";
                 "-passin"; "pass:1234"; "-CAcreateserial";
                 "-out"; "domains/" +:+ domain +:+ "/" +:+ domain +:+ ".crt";
                 "-days"; "365"; "-sha256"; "-extfile"; config_file;
                 "-extensions"; "v3_req"];
            Print ("Generated Certificate: "
                   +:+ "domains/" +:+ domain +:+ "/" +:+ domain +:+ ".crt")])).
Proof. unfold sign_certificate, bind, subprocess_run, print, log, ret. proj. by rewrite <- app_assoc. Qed.

Lemma runs_cons e evs :
  runs (e :: evs)
  = match e with Run argv => argv :: runs evs | _ => runs evs end.
Proof. by destruct e. Qed.

Lemma last_app_some {A} (l1 l2 : list A) x :
  last l2 = Some x → last (l1 ++ l2) = Some x.
Proof. intros H. by rewrite last_app, H. Qed.

Lemma issuance_runs_eq d c :
  issuance_runs d c
  = [["openssl"; "genrsa"; "-out";
      "domains/" +:+ d +:+ "/" +:+ d +:+ ".key"; "2048"];
     ["openssl"; "req"; "-new"; "-key";
      "domains/" +:+ d +:+ "/" +:+ d +:+ ".key";
      "-out"; "domains/" +:+ d +:+ "/" +:+ d +:+ ".csr";
      "-config"; c];
     ["openssl"; "x509"; "-req"; "-in";
      "domains/" +:+ d +:+ "/" +:+ d +:+ ".csr";
      "-CA"; "LocalRootCA.crt"; "-CAkey"; "LocalRootCA.key";
      "-passin"; "pass:1234"; "-CAcreateserial";
      "-out"; "domains/" +:+ d +:+ "/" +:+ d +:+ ".crt";
      "-days"; "365"; "-sha256"; "-extfile"; c;
      "-extensions"; "v3_req"]].
Proof. reflexivity. Qed.

Lemma create_openssl_config_missing domain alt_names w :
  "domains/" +:+ Py.replace "*." "" domain ∉ w_dirs w →
  create_openssl_config domain alt_names w
  = (Raised (FileNotFoundError
               ("domains/" +:+ Py.replace "*." "" domain +:+ "/openssl.cnf")),
     w).
Proof.
  intros Hdir. unfold create_openssl_config, bind, open_w.
  assert (dirname ("domains/" +:+ Py.replace "*." "" domain +:+ "/openssl.cnf")
          = "domains/" +:+ Py.replace "*." "" domain) as ->.
  { rewrite <- str_app_assoc. apply dirname_config. }
  by rewrite (bool_decide_eq_false_2 _ Hdir).
Qed.

Lemma list_contains_iff x l : Py.list_contains x l = true ↔ x ∈ l.
Proof.
  induction l as [|y t IH]; cbn [Py.list_contains].
  - split; [done|]. by intros ?%elem_of_nil.
  - rewrite elem_of_cons. destruct (String.eqb y x) eqn:E.
    + apply String.eqb_eq in E. split; [intros _; by left|done].
    + apply String.eqb_neq in E. rewrite IH.
      split; [by right|]. intros [Hx|Hx]; [by subst|done].
Qed.

(** ** The properties *)

(** The program's own methods agree with the wording of the specification:
    [isspace] with the list of code points, [lstrip] and [rstrip] with the
    white space dropped at either end, [split] with the segments. *)
Lemma isspace_spec (c : ascii) : Py.isspace c = spec_space c.
Proof.
  destruct c as [[] [] [] [] [] [] [] []]; vm_compute; reflexivity.
Qed.

Lemma lstrip_spec (s : string) :
  String.list_ascii_of_string (Py.lstrip s) = drop_space (String.list_ascii_of_string s).
Proof.
  induction s as [|c r IH]; [reflexivity|].
  cbn [Py.lstrip String.list_ascii_of_string drop_space].
  rewrite <- isspace_spec. by destruct (Py.isspace c).
Qed.

Lemma drop_space_snoc (l : list ascii) (c : ascii) :
  drop_space (l ++ [c])
  = match drop_space l with
    | [] => if spec_space c then [] else [c]
    | x => x ++ [c]
    end.
Proof.
  induction l as [|a l IH]; [reflexivity|].
  cbn [app drop_space]. by destruct (spec_space a).
Qed.

Lemma rstrip_spec (s : string) :
  String.list_ascii_of_string (Py.rstrip s)
  = rev (drop_space (rev (String.list_ascii_of_string s))).
Proof.
  induction s as [|c r IH]; [reflexivity|].
  cbn [Py.rstrip String.list_ascii_of_string rev]. rewrite drop_space_snoc.
  rewrite <- isspace_spec.
  destruct (drop_space (rev (String.list_ascii_of_string r))) as [|x t] eqn:E.
  - destruct (Py.rstrip r) as [|a r']; [|discriminate IH].
    by destruct (Py.isspace c).
  - rewrite rev_app_distr. change (rev [c]) with [c]. cbn [app].
    rewrite <- IH.
    destruct (Py.rstrip r) as [|a r'] eqn:Er; [|reflexivity].
    cbn [String.list_ascii_of_string] in IH. symmetry in IH.
    apply app_eq_nil in IH as [_ IH]. discriminate IH.
Qed.

Lemma strip_spec (s : string) : Py.strip s = spec_strip s.
Proof.
  unfold Py.strip, spec_strip.
  rewrite <- lstrip_spec, <- rstrip_spec.
  by rewrite String.string_of_list_ascii_of_string.
Qed.

Lemma string_of_list_snoc (l : list ascii) (c : ascii) (h : string) :
  String.string_of_list_ascii (l ++ [c]) +:+ h
  = String.string_of_list_ascii l +:+ String c h.
Proof.
  induction l as [|a l IH]; [reflexivity|].
  cbn [app String.string_of_list_ascii]. by rewrite !str_app_cons, IH.
Qed.

Lemma segments_spec (sep : ascii) (l cur : list ascii) :
  segments sep cur l
  = match Py.split sep (String.string_of_list_ascii l) with
    | h :: t => (String.string_of_list_ascii (rev cur) +:+ h) :: t
    | [] => []
    end.
Proof.
  revert cur. induction l as [|c r IH]; intros cur.
  - cbn [segments String.string_of_list_ascii Py.split]. by rewrite str_app_nil_r.
  - cbn [segments String.string_of_list_ascii Py.split].
    destruct (Ascii.eqb c sep).
    + rewrite str_app_nil_r. f_equal. rewrite IH.
      destruct (Py.split sep (String.string_of_list_ascii r)) as [|h t] eqn:E.
      { by destruct (split_nonempty sep (String.string_of_list_ascii r)). }
      cbn [rev String.string_of_list_ascii]. by rewrite str_app_nil_l.
    + rewrite IH.
      destruct (Py.split sep (String.string_of_list_ascii r)) as [|h t] eqn:E.
      { by destruct (split_nonempty sep (String.string_of_list_ascii r)). }
      cbn [rev]. by rewrite string_of_list_snoc.
Qed.

Lemma split_spec (sep : ascii) (s : string) :
  Py.split sep s = spec_split sep s.
Proof.
  unfold spec_split. rewrite segments_spec, String.string_of_list_ascii_of_string.
  destruct (Py.split sep s) as [|h t] eqn:E; [reflexivity|].
  cbn [rev String.string_of_list_ascii]. by rewrite str_app_nil_l.
Qed.

(** The parsed names of a line, by the program's own methods. *)
Lemma alt_names_of_line (line : string) :
  parse_alt_names (Py.strip line)
  = filter (fun s => s ≠ "") (map Py.strip (Py.split "," line)).
Proof.
  unfold parse_alt_names.
  rewrite <- parse_segments_filter.
  change (Py.strip line) with (Py.rstrip (Py.lstrip line)).
  pose proof (split_rstrip "," (Py.lstrip line) eq_refl) as Hr.
  rewrite (split_lstrip "," line eq_refl) in Hr.
  destruct (Py.split "," line) as [|h t] eqn:Es.
  { by destruct (split_nonempty "," line). }
  destruct (Py.split "," (Py.rstrip (Py.lstrip line))) as [|h' t'];
    inversion Hr as [|x y l l' Hxy Hll]; subst.
  cbn [flat_map]. rewrite (strip_of_rstrip_eq _ _ Hxy), strip_of_lstrip.
  f_equal. apply parse_segments_strip.
  eapply Forall2_impl; [exact Hll|]. intros a b. apply strip_of_rstrip_eq.
Qed.

(** C3.  For every domain and every list of alternate names: when the
    domain is not an element of the list, the final list is the domain
    followed by the list as it was; when it is an element, the final list
    is the list unchanged. *)
Theorem main_domain_prepended (domain : string) (alt_names_list : list string) :
  (domain ∉ alt_names_list →
   add_main_domain domain alt_names_list = domain :: alt_names_list)
  ∧ (domain ∈ alt_names_list →
     add_main_domain domain alt_names_list = alt_names_list).
Proof.
  unfold add_main_domain, Py.list_insert. split; intros H.
  - destruct (Py.list_contains domain alt_names_list) eqn:E; [|done].
    by apply list_contains_iff in E.
  - apply list_contains_iff in H. by rewrite H.
Qed.

Lemma main_domain_prepended_witness :
  add_main_domain "example.com" ["www.example.com"]
  = ["example.com"; "www.example.com"]
  ∧ add_main_domain "example.com" ["www.example.com"; "example.com"]
    = ["www.example.com"; "example.com"].
Proof.
  split.
  - apply (main_domain_prepended "example.com" ["www.example.com"]).
    apply (bool_decide_eq_false_1 _). vm_compute. reflexivity.
  - apply (main_domain_prepended "example.com"
             ["www.example.com"; "example.com"]).
    apply (bool_decide_eq_true_1 _). vm_compute. reflexivity.
Defined.

(** C9.  For every line of alternate names the parsed list is: the line
    split on commas, every segment stripped of the white space before its
    first and after its last other character, the segments that are empty
    after that left out.  The right-hand side is worded without the string
    methods of the program.  This holds for the line as it is typed
    (line 139 strips it first) and for the comprehension of line 140 on
    any string.  The line [a, ,b,] gives [a] and [b]; in a line with
    blanks and tabs around the names, and a blank inside one, only the
    surrounding ones go. *)
Theorem alt_names_parsed :
  (∀ line, parse_alt_names (Py.strip line) = spec_alt_names line)
  ∧ (∀ alt_names, parse_alt_names alt_names = spec_alt_names alt_names)
  ∧ parse_alt_names (Py.strip "a, ,b,") = ["a"; "b"]
  ∧ parse_alt_names (Py.strip "  www.a.test ,	b c  ,, d	")
    = ["www.a.test"; "b c"; "d"]
  ∧ spec_alt_names "  www.a.test ,	b c  ,, d	"
    = ["www.a.test"; "b c"; "d"].
Proof.
  split; [|split; [|repeat split; vm_compute; reflexivity]].
  - intros line. rewrite alt_names_of_line. unfold spec_alt_names.
    rewrite split_spec. f_equal. apply map_ext. intros seg. apply strip_spec.
  - intros alt_names. unfold parse_alt_names, spec_alt_names.
    rewrite parse_segments_filter, split_spec. f_equal.
    apply map_ext. intros seg. apply strip_spec.
Qed.

(** C7.  For every domain string without an asterisk (the empty string
    included) the configuration file is generated in [domains/<domain>]:
    its path is [domains/<domain>/openssl.cnf], the call writes the file
    there when that directory exists and raises for that path when it does
    not. *)
Theorem plain_domain_dir (domain : string) (alt_names : list string)
    (w : World) :
  has_char "*" domain = false →
  dirname ("domains/" +:+ domain +:+ "/openssl.cnf") = "domains/" +:+ domain
  ∧ ("domains/" +:+ domain ∈ w_dirs w →
     ∃ w', create_openssl_config domain alt_names w
           = (Ok ("domains/" +:+ domain +:+ "/openssl.cnf"), w')
           ∧ is_Some (w_files w' !! ("domains/" +:+ domain +:+ "/openssl.cnf")))
  ∧ ("domains/" +:+ domain ∉ w_dirs w →
     create_openssl_config domain alt_names w
     = (Raised (FileNotFoundError ("domains/" +:+ domain +:+ "/openssl.cnf")),
        w)).
Proof.
  intros Hstar. pose proof (replace_marker_no_star domain Hstar) as Hrep.
  split; [|split].
  - rewrite <- str_app_assoc. apply dirname_config.
  - intros Hdir. rewrite <- Hrep in Hdir.
    rewrite (create_openssl_config_run domain alt_names w Hdir). cbv zeta.
    rewrite Hrep. eexists. split; [reflexivity|]. proj.
    rewrite lookup_insert_eq. by eexists.
  - intros Hdir. rewrite <- Hrep in Hdir.
    rewrite (create_openssl_config_missing domain alt_names w Hdir).
    by rewrite Hrep.
Qed.

Lemma plain_domain_dir_witness :
  ∃ w', create_openssl_config "example.com" ["example.com"]
          (mkWorld ∅ {[ "domains/example.com" ]} ∅ [] [])
        = (Ok "domains/example.com/openssl.cnf", w')
        ∧ is_Some (w_files w' !! "domains/example.com/openssl.cnf").
Proof.
  destruct (plain_domain_dir "example.com" ["example.com"]
              (mkWorld ∅ {[ "domains/example.com" ]} ∅ [] []) eq_refl)
    as (_ & H & _).
  apply H. apply (bool_decide_eq_true_1 _). vm_compute. reflexivity.
Defined.

(** C2, as the code has it.  For every domain string [*.<rest>] whose
    [<rest>] holds no further [*.], the configuration file is generated in
    [domains/<rest>]: its path is [domains/<rest>/openssl.cnf], the call
    writes the file there when that directory exists and raises for that
    path when it does not. *)
Theorem wildcard_domain_dir (rest : string) (alt_names : list string)
    (w : World) :
  Py.contains "*." rest = false →
  dirname ("domains/" +:+ rest +:+ "/openssl.cnf") = "domains/" +:+ rest
  ∧ ("domains/" +:+ rest ∈ w_dirs w →
     ∃ w', create_openssl_config ("*." +:+ rest) alt_names w
           = (Ok ("domains/" +:+ rest +:+ "/openssl.cnf"), w')
           ∧ is_Some (w_files w' !! ("domains/" +:+ rest +:+ "/openssl.cnf")))
  ∧ ("domains/" +:+ rest ∉ w_dirs w →
     create_openssl_config ("*." +:+ rest) alt_names w
     = (Raised (FileNotFoundError ("domains/" +:+ rest +:+ "/openssl.cnf")),
        w)).
Proof.
  intros Habs.
  assert (Py.replace "*." "" ("*." +:+ rest) = rest) as Hrep.
  { by rewrite replace_marker_head, replace_marker_absent. }
  split; [|split].
  - rewrite <- str_app_assoc. apply dirname_config.
  - intros Hdir. rewrite <- Hrep in Hdir.
    rewrite (create_openssl_config_run _ alt_names w Hdir). cbv zeta.
    rewrite Hrep. eexists. split; [reflexivity|]. proj.
    rewrite lookup_insert_eq. by eexists.
  - intros Hdir. rewrite <- Hrep in Hdir.
    rewrite (create_openssl_config_missing _ alt_names w Hdir).
    by rewrite Hrep.
Qed.

Lemma wildcard_domain_dir_witness :
  ∃ w', create_openssl_config "*.example.com" ["*.example.com"]
          (mkWorld ∅ {[ "domains/example.com" ]} ∅ [] [])
        = (Ok "domains/example.com/openssl.cnf", w')
        ∧ is_Some (w_files w' !! "domains/example.com/openssl.cnf").
Proof.
  destruct (wildcard_domain_dir "example.com" ["*.example.com"]
              (mkWorld ∅ {[ "domains/example.com" ]} ∅ [] []) eq_refl)
    as (_ & H & _).
  apply H. apply (bool_decide_eq_true_1 _). vm_compute. reflexivity.
Defined.

(** C2, as the specification has it, fails: for the domain
    [*.*.example.com] the part after the leading marker is
    [*.example.com], but the run makes the directory
    [domains/example.com], puts the configuration file there, and makes
    no [domains/*.example.com]. *)
Lemma wildcard_domain_dir_counterexample :
  let rest := "*.example.com" in
  let w' := snd (main (example_world true ["*." +:+ rest; ""])) in
  fst (main (example_world true ["*." +:+ rest; ""])) = Ok tt
  ∧ exists_in w' ("domains/" +:+ rest) = false
  ∧ w_files w' !! ("domains/" +:+ rest +:+ "/openssl.cnf") = None
  ∧ exists_in w' "domains/example.com" = true
  ∧ is_Some (w_files w' !! "domains/example.com/openssl.cnf")
  ∧ fst (create_openssl_config ("*." +:+ rest) []
           (mkWorld ∅ {[ "domains/" +:+ rest; "domains/example.com" ]} ∅ [] []))
    = Ok "domains/example.com/openssl.cnf".
Proof.
  cbv zeta. repeat split; try (vm_compute; reflexivity).
  vm_compute. by eexists.
Qed.

(** C4.  For every list of alternate names given to the configuration
    generation (names and domain being single-line texts), the file
    generated holds, after the fixed head, one line [DNS.<n> = <name>]
    per name, numbered from 1 in the order of the list, and no other line
    that starts with [DNS.]; for the list [a, b, c] these are
    [DNS.1 = a], [DNS.2 = b], [DNS.3 = c]. *)
Theorem dns_entries_numbered (domain : string) (alt_names : list string)
    (w : World) :
  "domains/" +:+ Py.replace "*." "" domain ∈ w_dirs w →
  has_char nl_char domain = false →
  Forall (fun a => has_char nl_char a = false) alt_names →
  ∃ path w' text,
    create_openssl_config domain alt_names w = (Ok path, w')
    ∧ w_files w' !! path = Some text
    ∧ text = config_head domain +:+ unlines (numbered_from 1 alt_names)
    ∧ dns_lines text = numbered_from 1 alt_names.
Proof.
  intros Hdir Hd Hn.
  rewrite (create_openssl_config_run domain alt_names w Hdir). cbv zeta.
  eexists _, _, _. split; [reflexivity|]. proj.
  split; [apply lookup_insert_eq|]. split; [reflexivity|].
  by apply config_head_lines.
Qed.

Lemma dns_entries_numbered_witness :
  ∃ path w' text,
    create_openssl_config "example.com" ["a"; "b"; "c"]
      (mkWorld ∅ {[ "domains/example.com" ]} ∅ [] [])
    = (Ok path, w')
    ∧ w_files w' !! path = Some text
    ∧ text = config_head "example.com"
             +:+ unlines ["DNS.1 = a"; "DNS.2 = b"; "DNS.3 = c"]
    ∧ dns_lines text = ["DNS.1 = a"; "DNS.2 = b"; "DNS.3 = c"].
Proof.
  apply (dns_entries_numbered "example.com" ["a"; "b"; "c"]
           (mkWorld ∅ {[ "domains/example.com" ]} ∅ [] [])).
  - apply (bool_decide_eq_true_1 _). vm_compute. reflexivity.
  - reflexivity.
  - repeat constructor.
Defined.



(** C8.  When the domain typed is empty after stripping (tool installed,
    root CA files there), the run prints [Domain cannot be empty!] and
    ends normally; nothing but the banner, the prompt and that message
    happened: no directory, no file, no [openssl] call. *)
Theorem empty_domain_aborts (w : World) (p line : string)
    (rest : list string) :
  w_which w !! "openssl" = Some p →
  root_ca_files w = true →
  w_stdin w = line :: rest →
  Py.strip line = "" →
  main w
  = (Ok tt,
     mkWorld (w_which w) (w_dirs w) (w_files w) rest
             (w_log w ++ [Print banner; Prompt domain_prompt;
                          Print "Domain cannot be empty!"])).
Proof.
  intros Hw Hca Hin He. rewrite (main_with_root_ca w p Hw Hca).
  erewrite main_domain_empty by (proj; done). proj.
  by rewrite <- app_assoc.
Qed.

Lemma empty_domain_aborts_witness :
  main (example_world true ["   "])
  = (Ok tt,
     mkWorld (w_which (example_world true ["   "]))
             (w_dirs (example_world true ["   "]))
             (w_files (example_world true ["   "])) []
             ([] ++ [Print banner; Prompt domain_prompt;
                     Print "Domain cannot be empty!"])).
Proof.
  apply (empty_domain_aborts (example_world true ["   "])
           "/usr/bin/openssl" "   " []).
  - reflexivity.
  - reflexivity.
  - reflexivity.
  - reflexivity.
Defined.

(** C10.  When the root CA files are not all there, the run calls
    [create_root_ca] exactly when the answer, stripped and lowercased, is
    [y]; any other answer, [yes] and [Y es] among them, gets the message
    that the run cannot proceed, and the run ends there. *)
Theorem creation_only_on_y (w : World) (p line : string)
    (rest : list string) :
  w_which w !! "openssl" = Some p →
  root_ca_files w = false →
  w_stdin w = line :: rest →
  (Py.lower (Py.strip line) = "y" → fst (main w) = Raised unexpected_keyword)
  ∧ (Py.lower (Py.strip line) ≠ "y" →
     main w
     = (Ok tt,
        mkWorld (w_which w) (w_dirs w) (w_files w) rest
                (w_log w ++ [Print banner; Prompt root_ca_prompt;
                             Print "Cannot proceed without root CA certificate."])))
  ∧ Py.lower (Py.strip "yes") ≠ "y"
  ∧ Py.lower (Py.strip "Y es") ≠ "y"
  ∧ Py.lower (Py.strip " Y ") = "y".
Proof.
  intros Hw Hca Hin. rewrite (main_without_root_ca w p line rest Hw Hca Hin).
  destruct (String.eqb (Py.lower (Py.strip line)) "y") eqn:E.
  - apply String.eqb_eq in E. repeat split; try done.
  - apply String.eqb_neq in E. repeat split; try done.
Qed.

Lemma creation_only_on_y_witness :
  fst (main (example_world false [" Y "])) = Raised unexpected_keyword
  ∧ main (example_world false ["yes"])
    = (Ok tt,
       mkWorld (w_which (example_world false ["yes"])) ∅ ∅ []
               ([] ++ [Print banner; Prompt root_ca_prompt;
                       Print "Cannot proceed without root CA certificate."])).
Proof.
  split.
  - destruct (creation_only_on_y (example_world false [" Y "])
                "/usr/bin/openssl" " Y " [] eq_refl eq_refl eq_refl)
      as (Hyes & _).
    apply Hyes. reflexivity.
  - destruct (creation_only_on_y (example_world false ["yes"])
                "/usr/bin/openssl" "yes" [] eq_refl eq_refl eq_refl)
      as (_ & Hno & _).
    apply Hno. vm_compute. discriminate.
Defined.

(** C1, as the code has it.  With the tool installed, no root CA file and
    the answer [y], the run does not issue the root CA: the call of line
    122 raises [TypeError] before [create_root_ca] starts, [openssl] is
    never run, no file appears and the domain is never asked for. *)
Theorem root_ca_creation_raises :
  let w' := snd (main (example_world false ["y"; "example.com"; ""])) in
  fst (main (example_world false ["y"; "example.com"; ""]))
  = Raised unexpected_keyword
  ∧ w_log w' = [Print banner; Prompt root_ca_prompt]
  ∧ runs (w_log w') = []
  ∧ w_files w' = ∅
  ∧ w_stdin w' = ["example.com"; ""].
Proof. cbv zeta. repeat split; vm_compute; reflexivity. Qed.

(** What the call would have done with a call that fits the function:
    three [openssl] runs for the key, the certificate and the PEM copy. *)
Lemma create_root_ca_body_runs :
  runs (w_log (snd (create_root_ca (example_world false []))))
  = [["openssl"; "genrsa"; "-des3"; "-passout"; "pass:1234";
      "-out"; "LocalRootCA.key"; "4096"];
     ["openssl"; "req"; "-x509"; "-new"; "-nodes";
      "-key"; "LocalRootCA.key"; "-sha256"; "-days"; "3650";
      "-passin"; "pass:1234"; "-out"; "LocalRootCA.crt"; "-subj";
      "/C=US/ST=State/L=City/O=Local CA/OU=Development/CN=Local Root CA"];
     ["openssl"; "x509"; "-in"; "LocalRootCA.crt";
      "-out"; "LocalRootCA.pem"; "-outform"; "PEM"]].
Proof. vm_compute. reflexivity. Qed.

(** C6.  The run with the domain [*.example.com] and the alternate names
    [admin.example.com, *.app.example.com]: the final list is
    [*.example.com], [admin.example.com], [*.app.example.com]; the
    directory is [domains/example.com]; the configuration file is
    [domains/example.com/openssl.cnf] with its [DNS.n] lines in the order
    of the list; and [openssl] is run for
    [domains/example.com/example.com.key], [.csr] and [.crt]. *)
Theorem example_run :
  let input := ["*.example.com"; "admin.example.com, *.app.example.com"] in
  let w' := snd (main (example_world true input)) in
  fst (main (example_world true input)) = Ok tt
  ∧ add_main_domain "*.example.com"
      (parse_alt_names (Py.strip "admin.example.com, *.app.example.com"))
    = ["*.example.com"; "admin.example.com"; "*.app.example.com"]
  ∧ w_dirs w' = {[ "domains"; "domains/example.com" ]}
  ∧ filter (fun e => creates e = true) (w_log w')
    = [MakeDirs "domains"; MakeDirs "domains/example.com";
       Open "domains/example.com/openssl.cnf";
       Write "domains/example.com/openssl.cnf" (config_head "*.example.com");
       Write "domains/example.com/openssl.cnf"
             ("DNS.1 = *.example.com" +:+ nl);
       Write "domains/example.com/openssl.cnf"
             ("DNS.2 = admin.example.com" +:+ nl);
       Write "domains/example.com/openssl.cnf"
             ("DNS.3 = *.app.example.com" +:+ nl);
       Run ["openssl"; "genrsa"; "-out";
            "domains/example.com/example.com.key"; "2048"];
       Run ["openssl"; "req"; "-new";
            "-key"; "domains/example.com/example.com.key";
            "-out"; "domains/example.com/example.com.csr";
            "-config"; "domains/example.com/openssl.cnf"];
       Run ["openssl"; "x509"; "-req";
            "-in"; "domains/example.com/example.com.csr";
            "-CA"; "LocalRootCA.crt"; "-CAkey"; "LocalRootCA.key";
            "-passin"; "pass:1234"; "-CAcreateserial";
            "-out"; "domains/example.com/example.com.crt";
            "-days"; "365"; "-sha256";
            "-extfile"; "domains/example.com/openssl.cnf";
            "-extensions"; "v3_req"]]
  ∧ dns_lines (default "" (w_files w' !! "domains/example.com/openssl.cnf"))
    = ["DNS.1 = *.example.com"; "DNS.2 = admin.example.com";
       "DNS.3 = *.app.example.com"].
Proof.
  cbv zeta. repeat split; try (vm_compute; reflexivity).
Qed.

(** ** Every run of the driver *)

Lemma input_eof text w :
  w_stdin w = [] →
  input text w
  = (Raised EOFError,
     mkWorld (w_which w) (w_dirs w) (w_files w) (w_stdin w)
             (w_log w ++ [Prompt text])).
Proof. intros H. unfold input, bind, read_line, log. simpl. by rewrite H. Qed.

Lemma check_openssl_missing w :
  w_which w !! "openssl" = None →
  check_openssl w
  = (Ok false,
     mkWorld (w_which w) (w_dirs w) (w_files w) (w_stdin w)
       (w_log w
        ++ [Print "Error: OpenSSL is not installed or not available in system PATH";
            Print "Please install OpenSSL and try again"])).
Proof.
  intros H. unfold check_openssl, bind, which. rewrite H.
  rewrite !print_run. proj. unfold ret. by rewrite <- app_assoc.
Qed.

Lemma outside_domains_kept_same w w' :
  w_which w' = w_which w → w_dirs w' = w_dirs w → w_files w' = w_files w →
  outside_domains_kept w w'.
Proof. intros H1 H2 H3. unfold outside_domains_kept. by rewrite H1, H2, H3. Qed.

Lemma exists_in_mono w w' path :
  w_dirs w ⊆ w_dirs w' →
  w_files w' !! path = w_files w !! path →
  exists_in w path = true → exists_in w' path = true.
Proof.
  intros Hd Hf. unfold exists_in. rewrite Hf.
  intros [H|H]%orb_true_iff; apply orb_true_iff; [left|by right].
  apply bool_decide_eq_true_1 in H. apply bool_decide_eq_true_2. by apply Hd.
Qed.

Lemma exists_in_dir w path : path ∈ w_dirs w → exists_in w path = true.
Proof.
  intros H. unfold exists_in. by rewrite (bool_decide_eq_true_2 _ H).
Qed.

Lemma exists_in_after_ensure path msg w :
  exists_in (after_ensure path msg w) path = true.
Proof.
  unfold after_ensure. destruct (exists_in w path) eqn:E; [exact E|].
  apply exists_in_dir. proj. set_solver.
Qed.

(** A file written leaves every path that existed in existence. *)
Lemma exists_in_insert w wh f t si lg path :
  exists_in w path = true →
  exists_in (mkWorld wh (w_dirs w) (<[f := t]> (w_files w)) si lg) path = true.
Proof.
  unfold exists_in. proj.
  intros [H|H]%orb_true_iff; apply orb_true_iff; [by left|right].
  apply bool_decide_eq_true_1 in H. apply bool_decide_eq_true_2.
  destruct (decide (f = path)) as [->|Hne].
  - rewrite lookup_insert_eq. by eexists.
  - by rewrite lookup_insert_ne.
Qed.

Lemma ensure_events_effect d w path msg :
  path = "domains" ∨ path = "domains/" +:+ d →
  Forall (main_effect d) (ensure_events w path msg).
Proof.
  intros H. unfold ensure_events. destruct (exists_in w path); [constructor|].
  constructor; [exact H|]. constructor; [exact I|]. constructor.
Qed.

Lemma writes_effect d (entries : list (nat * string)) :
  Forall (main_effect d)
         (map (fun '(i, a) =>
                 Write ("domains/" +:+ d +:+ "/openssl.cnf") (dns_entry i a))
              entries).
Proof. induction entries as [|[i a] t IH]; by constructor. Qed.

Ltac effects :=
  repeat first
    [ apply Forall_nil_2
    | apply Forall_cons; split
    | apply Forall_app; split
    | apply ensure_events_effect; auto
    | apply writes_effect ];
  cbn [main_effect];
  first [ exact I | reflexivity
        | repeat first [apply list_elem_of_here | apply list_elem_of_further] ].

(** Every outcome of [main_domain], for every world: end of input at
    one of the two prompts, an empty domain, a configuration file that
    cannot be opened, or the full issuance.  Whatever the outcome, every
    effect is one of those allowed for the directory name of the first
    line. *)
Lemma main_domain_cases w :
  ∃ r w' evs,
    main_domain w = (r, w')
    ∧ w_log w' = w_log w ++ evs
    ∧ outside_domains_kept w w'
    ∧ Forall (main_effect (Py.replace "*." "" (Py.strip (hd "" (w_stdin w)))))
             evs
    ∧ ((r = Raised EOFError ∧ length (w_stdin w) < 2
        ∧ disk_kept w w' ∧ runs evs = [])
       ∨ (r = Ok tt ∧ disk_kept w w' ∧ runs evs = []
          ∧ ∃ line rest, w_stdin w = line :: rest ∧ Py.strip line = ""
                         ∧ w_stdin w' = rest)
       ∨ (∃ line1 line2 rest,
            w_stdin w = line1 :: line2 :: rest ∧ Py.strip line1 ≠ ""
            ∧ w_stdin w' = rest
            ∧ (let dir_domain := Py.replace "*." "" (Py.strip line1) in
               let config_file := "domains/" +:+ dir_domain +:+ "/openssl.cnf" in
               ((r = Raised (FileNotFoundError config_file)
                 ∧ ("domains/" +:+ dir_domain ∉ w_dirs w')
                 ∧ w_files w' = w_files w ∧ runs evs = [])
                ∨ (r = Ok tt
                   ∧ "domains/" +:+ dir_domain ∈ w_dirs w'
                   ∧ w_files w'
                     = <[config_file
                         := config_head (Py.strip line1)
                            +:+ unlines
                                  (numbered_from 1
                                     (add_main_domain (Py.strip line1)
                                        (parse_alt_names (Py.strip line2))))]>
                         (w_files w)
                   ∧ runs evs = issuance_runs dir_domain config_file
                   ∧ (exists_in w "domains" = true →
                      exists_in w ("domains/" +:+ dir_domain) = true →
                      w_dirs w' = w_dirs w)
                   ∧ exists_in w' "domains" = true
                   ∧ last evs
                     = Some (Print
                               (if Py.contains "*" (Py.strip line1)
                                then "   But NOT for: sub.test.example.com (different level)"
                                else "1. Your certificate files are in the 'domains' directory"))))))).
Proof.
  unfold main_domain. unfold bind at 1.
  destruct (w_stdin w) as [|line1 rest1] eqn:Hin.
  { rewrite (input_eof _ _ Hin). eexists _, _, _.
    split; [reflexivity|]. proj. split; [reflexivity|].
    split; [by apply outside_domains_kept_same|].
    split; [effects|].
    left. repeat split; try done. simpl. lia. }
  rewrite (input_run _ _ _ _ Hin). cbn [hd].
  destruct (String.eqb (Py.strip line1) "") eqn:E.
  { apply String.eqb_eq in E. rewrite print_run. proj. eexists _, _, _.
    split; [reflexivity|]. proj. rewrite <- app_assoc.
    split; [reflexivity|]. split; [by apply outside_domains_kept_same|].
    split; [effects|].
    right; left. repeat split; try done. by eexists _, _. }
  apply String.eqb_neq in E.
  do 4 (unfold bind at 1; rewrite print_run; proj).
  unfold bind at 1.
  destruct rest1 as [|line2 rest].
  { erewrite input_eof by (proj; reflexivity). proj. eexists _, _, _.
    split; [reflexivity|]. proj. rewrite <- !app_assoc.
    split; [reflexivity|]. split; [by apply outside_domains_kept_same|].
    split; [effects|].
    left. repeat split; try done. simpl. lia. }
  erewrite input_run by (proj; reflexivity). proj.
  set (domain := Py.strip line1) in *.
  set (dir_domain := Py.replace "*." "" domain).
  set (names := add_main_domain domain (parse_alt_names (Py.strip line2))).
  unfold bind at 1. unfold path_exists at 1.
  unfold bind at 1. rewrite ensure_run.
  match goal with |- context [after_ensure "domains" ?m ?w0] =>
    set (msg1 := m); set (wa := w0);
    destruct (after_ensure_same "domains" msg1 wa)
      as (Hw1 & Hfl1 & Hs1 & Hdi1 & Hl1);
    pose proof (exists_in_after_ensure "domains" msg1 wa) as Hex1;
    set (w1 := after_ensure "domains" msg1 wa) in *
  end.
  unfold bind at 1. unfold path_exists at 1.
  unfold bind at 1. rewrite ensure_run.
  match goal with |- context [after_ensure ?p ?m w1] =>
    set (msg2 := m);
    destruct (after_ensure_same p msg2 w1)
      as (Hw2 & Hfl2 & Hs2 & Hdi2 & Hl2);
    set (w2 := after_ensure p msg2 w1) in *
  end.
  assert (w_which w2 = w_which w) as Hwh by by rewrite Hw2, Hw1.
  assert (w_files w2 = w_files w) as Hfl by by rewrite Hfl2, Hfl1.
  assert (w_stdin w2 = rest) as Hst by by rewrite Hs2, Hs1.
  assert (w_dirs w ⊆ w_dirs w2) as Hdi.
  { intros x Hx. apply Hdi2, Hdi1. exact Hx. }
  assert (exists_in w2 "domains" = true) as Hex.
  { apply (exists_in_mono w1 w2); [exact Hdi2|by rewrite Hfl2|exact Hex1]. }
  assert (w_log w2
          = w_log w
            ++ [Prompt domain_prompt;
                Print (nl +:+ "Enter alternate domain names (comma-separated)");
                Print "Examples:";
                Print "- For wildcard subdomains: *.app.example.com";
                Print "- For specific domains: admin.example.com";
                Prompt "Alternate names: "]
            ++ ensure_events wa "domains" msg1
            ++ ensure_events w1 ("domains/" +:+ dir_domain) msg2) as Hlg.
  { rewrite Hl2, Hl1. subst wa. proj. by rewrite <- !app_assoc. }
  assert (exists_in w "domains" = true →
          exists_in w ("domains/" +:+ dir_domain) = true →
          w_dirs w2 = w_dirs w) as Hsame.
  { intros H1 H2. unfold w2, w1, after_ensure.
    change (exists_in wa "domains") with (exists_in w "domains").
    rewrite H1.
    change (exists_in wa ("domains/" +:+ dir_domain))
      with (exists_in w ("domains/" +:+ dir_domain)).
    by rewrite H2. }
  clearbody w2. clear Hw1 Hfl1 Hs1 Hdi1 Hl1 Hw2 Hfl2 Hs2 Hdi2 Hl2 Hex1.
  unfold bind at 1.
  destruct (decide ("domains/" +:+ dir_domain ∈ w_dirs w2)) as [Hin2|Hout2].
  - rewrite (create_openssl_config_run domain names w2 Hin2).
    fold dir_domain.
    unfold bind at 1. rewrite create_key_run. proj.
    unfold bind at 1. rewrite create_csr_run. proj.
    unfold bind at 1. rewrite sign_certificate_run. proj.
    do 3 (unfold bind at 1; rewrite print_run; proj).
    assert (∀ p, Py.startswith "domains/" p = false →
                 <["domains/" +:+ dir_domain +:+ "/openssl.cnf"
                   := config_head domain +:+ unlines (numbered_from 1 names)]>
                   (w_files w2) !! p = w_files w !! p) as Hframe.
    { intros p Hp. rewrite lookup_insert_ne, Hfl; [done|].
      intros <-. discriminate Hp. }
    destruct (Py.contains "*" domain) eqn:Ec.
    + do 4 (unfold bind at 1; rewrite print_run; proj).
      rewrite print_run; proj.
      eexists _, _, _. split; [reflexivity|]. proj.
      rewrite Hlg, <- !app_assoc. split; [reflexivity|].
      split; [by repeat split|].
      split; [effects|].
      right; right. eexists _, _, _. split; [reflexivity|].
      split; [exact E|]. split; [exact Hst|]. cbv zeta. right.
      fold domain. fold dir_domain. fold names.
      split; [done|]. split; [done|]. split; [by rewrite Hfl|].
      split.
      { rewrite issuance_runs_eq.
        rewrite !runs_app, !runs_ensure_events, !runs_cons, runs_app,
          runs_writes.
        reflexivity. }
      split; [exact Hsame|].
      split; [by apply exists_in_insert|].
      rewrite Ec. repeat apply last_app_some. reflexivity.
    + unfold ret.
      eexists _, _, _. split; [reflexivity|]. proj.
      rewrite Hlg, <- !app_assoc. split; [reflexivity|].
      split; [by repeat split|].
      split; [effects|].
      right; right. eexists _, _, _. split; [reflexivity|].
      split; [exact E|]. split; [exact Hst|]. cbv zeta. right.
      fold domain. fold dir_domain. fold names.
      split; [done|]. split; [done|]. split; [by rewrite Hfl|].
      split.
      { rewrite issuance_runs_eq.
        rewrite !runs_app, !runs_ensure_events, !runs_cons, runs_app,
          runs_writes.
        reflexivity. }
      split; [exact Hsame|].
      split; [by apply exists_in_insert|].
      rewrite Ec. repeat apply last_app_some. reflexivity.
  - rewrite (create_openssl_config_missing domain names w2 Hout2).
    fold dir_domain.
    eexists _, _, _. split; [reflexivity|].
    rewrite Hlg. split; [reflexivity|].
    split; [by apply (conj Hwh), (conj Hdi); intros p _; rewrite Hfl|].
    split; [effects|].
    right; right. eexists _, _, _. split; [reflexivity|].
    split; [exact E|]. split; [exact Hst|]. cbv zeta. left.
    fold domain. fold dir_domain.
    split; [done|]. split; [done|]. split; [done|].
    by rewrite !runs_app, !runs_ensure_events.
Qed.

Lemma main_without_root_ca_eof w p :
  w_which w !! "openssl" = Some p →
  root_ca_files w = false →
  w_stdin w = [] →
  main w
  = (Raised EOFError,
     mkWorld (w_which w) (w_dirs w) (w_files w) []
             (w_log w ++ [Print banner; Prompt root_ca_prompt])).
Proof.
  intros Hw Hca Hin. unfold main.
  unfold bind at 1. rewrite (check_openssl_found _ _ Hw). cbn [negb].
  unfold bind at 1. rewrite print_run.
  unfold bind at 1. rewrite root_ca_present_run.
  assert (∀ ws, w_dirs ws = w_dirs w → w_files ws = w_files w →
                root_ca_files ws = false) as Hca'.
  { intros ws Hd Hf. rewrite <- Hca. unfold root_ca_files, exists_in.
    by rewrite Hd, Hf. }
  rewrite Hca' by done. cbn [negb].
  unfold bind at 1. erewrite input_eof by (proj; exact Hin). proj.
  by rewrite Hin, <- app_assoc.
Qed.

(** Every outcome of [main], for every world.  Either nothing is done on
    disk and no [openssl] is started, which is the case when the tool or a
    root CA file is missing, when fewer than two lines are typed or when
    the first is blank; or the configuration file could not be opened; or
    the certificate is issued for the domain.  Whatever the outcome, every
    effect is one of those allowed for the directory name of the first
    line. *)
Lemma main_cases_full w :
  ∃ r w' evs,
    main w = (r, w')
    ∧ w_log w' = w_log w ++ evs
    ∧ outside_domains_kept w w'
    ∧ Forall (main_effect (Py.replace "*." "" (Py.strip (hd "" (w_stdin w)))))
             evs
    ∧ ((disk_kept w w' ∧ runs evs = []
        ∧ (r = Ok tt ∨ r = Raised EOFError ∨ r = Raised unexpected_keyword)
        ∧ (w_which w !! "openssl" = None ∨ root_ca_files w = false
           ∨ length (w_stdin w) < 2
           ∨ ∃ line rest, w_stdin w = line :: rest ∧ Py.strip line = ""))
       ∨ (∃ line1 line2 rest,
            w_stdin w = line1 :: line2 :: rest ∧ Py.strip line1 ≠ ""
            ∧ w_stdin w' = rest
            ∧ is_Some (w_which w !! "openssl") ∧ root_ca_files w = true
            ∧ (let dir_domain := Py.replace "*." "" (Py.strip line1) in
               let config_file := "domains/" +:+ dir_domain +:+ "/openssl.cnf" in
               ((r = Raised (FileNotFoundError config_file)
                 ∧ ("domains/" +:+ dir_domain ∉ w_dirs w')
                 ∧ w_files w' = w_files w ∧ runs evs = [])
                ∨ (r = Ok tt
                   ∧ "domains/" +:+ dir_domain ∈ w_dirs w'
                   ∧ w_files w'
                     = <[config_file
                         := config_head (Py.strip line1)
                            +:+ unlines
                                  (numbered_from 1
                                     (add_main_domain (Py.strip line1)
                                        (parse_alt_names (Py.strip line2))))]>
                         (w_files w)
                   ∧ runs evs = issuance_runs dir_domain config_file
                   ∧ (exists_in w "domains" = true →
                      exists_in w ("domains/" +:+ dir_domain) = true →
                      w_dirs w' = w_dirs w)
                   ∧ exists_in w' "domains" = true
                   ∧ last evs
                     = Some (Print
                               (if Py.contains "*" (Py.strip line1)
                                then "   But NOT for: sub.test.example.com (different level)"
                                else "1. Your certificate files are in the 'domains' directory"))))))).
Proof.
  destruct (w_which w !! "openssl") as [p|] eqn:Hw.
  2:{ unfold main. unfold bind at 1. rewrite (check_openssl_missing _ Hw).
      cbn [negb]. unfold ret. eexists _, _, _.
      split; [reflexivity|]. proj. split; [reflexivity|].
      split; [by apply outside_domains_kept_same|].
      split; [effects|].
      left. repeat split; try done; by left. }
  destruct (root_ca_files w) eqn:Hca.
  - rewrite (main_with_root_ca w p Hw Hca).
    destruct (main_domain_cases
                (mkWorld (w_which w) (w_dirs w) (w_files w) (w_stdin w)
                         (w_log w ++ [Print banner])))
      as (r & w' & evs & Hrun & Hlog & Hout & Hev & Hcase).
    exists r, w', (Print banner :: evs). split; [exact Hrun|].
    split; [by rewrite Hlog; proj; rewrite <- app_assoc|].
    split; [exact Hout|].
    split; [by apply Forall_cons|]. rewrite runs_cons.
    destruct Hcase as [(-> & Hlen & Hd & Hr)|[(-> & Hd & Hr & Hl)|Hcase]].
    + left. repeat split; try done; try apply Hd; [by right; left|].
      by right; right; left.
    + left. repeat split; try done; try apply Hd; [by left|].
      destruct Hl as (line & rest & Hin & Hs & _).
      right; right; right. by exists line, rest.
    + right. destruct Hcase as (l1 & l2 & rest & Hin & Hne & Hst & Hc).
      exists l1, l2, rest. proj. repeat (split; [done|]).
      cbv zeta in Hc |- *.
      destruct Hc as [Hc|(H1 & H2 & H3 & H4 & H5 & H6 & H7)];
        [by left|right].
      repeat (split; [done|]).
      destruct evs as [|e evs']; [discriminate H7|exact H7].
  - destruct (w_stdin w) as [|line rest] eqn:Hin.
    + rewrite (main_without_root_ca_eof w p Hw Hca Hin). eexists _, _, _.
      split; [reflexivity|]. proj. split; [reflexivity|].
      split; [by apply outside_domains_kept_same|].
      split; [effects|].
      left. repeat split; try done; [by right; left|by right; left].
    + rewrite (main_without_root_ca w p line rest Hw Hca Hin).
      destruct (String.eqb (Py.lower (Py.strip line)) "y");
        eexists _, _, _; (split; [reflexivity|]); proj;
        (split; [reflexivity|]);
        (split; [by apply outside_domains_kept_same|]);
        (split; [effects|]);
        left; repeat split; try done;
        first [by right; right | by left | by right; left].
Qed.

Lemma main_cases w :
  ∃ r w' evs,
    main w = (r, w')
    ∧ w_log w' = w_log w ++ evs
    ∧ outside_domains_kept w w'
    ∧ ((disk_kept w w' ∧ runs evs = []
        ∧ (r = Ok tt ∨ r = Raised EOFError ∨ r = Raised unexpected_keyword))
       ∨ (∃ line1 line2 rest,
            w_stdin w = line1 :: line2 :: rest ∧ Py.strip line1 ≠ ""
            ∧ w_stdin w' = rest
            ∧ is_Some (w_which w !! "openssl") ∧ root_ca_files w = true
            ∧ (let dir_domain := Py.replace "*." "" (Py.strip line1) in
               let config_file := "domains/" +:+ dir_domain +:+ "/openssl.cnf" in
               ((r = Raised (FileNotFoundError config_file)
                 ∧ ("domains/" +:+ dir_domain ∉ w_dirs w')
                 ∧ w_files w' = w_files w ∧ runs evs = [])
                ∨ (r = Ok tt
                   ∧ "domains/" +:+ dir_domain ∈ w_dirs w'
                   ∧ w_files w'
                     = <[config_file
                         := config_head (Py.strip line1)
                            +:+ unlines
                                  (numbered_from 1
                                     (add_main_domain (Py.strip line1)
                                        (parse_alt_names (Py.strip line2))))]>
                         (w_files w)
                   ∧ runs evs = issuance_runs dir_domain config_file
                   ∧ (exists_in w "domains" = true →
                      exists_in w ("domains/" +:+ dir_domain) = true →
                      w_dirs w' = w_dirs w)))))).
Proof.
  destruct (main_cases_full w)
    as (r & w' & evs & Hrun & Hlog & Hout & _ & Hcase).
  exists r, w', evs. repeat (split; [done|]).
  destruct Hcase
    as [(Hd & Hr & Ho & _)
       |(l1 & l2 & rest & Hin & Hne & Hst & Hw & Hca & Hc)]; [by left|].
  right. exists l1, l2, rest. repeat (split; [done|]).
  cbv zeta in Hc |- *.
  destruct Hc as [Hc|(H1 & H2 & H3 & H4 & H5 & _)]; [by left|by right].
Qed.

Lemma new_events_app w w' evs :
  w_log w' = w_log w ++ evs → new_events w w' = evs.
Proof. intros H. unfold new_events. rewrite H. apply drop_app_length. Qed.

Lemma root_ca_runs_eq :
  root_ca_runs
  = [["openssl"; "genrsa"; "-des3"; "-passout"; "pass:1234";
      "-out"; "LocalRootCA.key"; "4096"];
     ["openssl"; "req"; "-x509"; "-new"; "-nodes";
      "-key"; "LocalRootCA.key"; "-sha256"; "-days"; "3650";
      "-passin"; "pass:1234"; "-out"; "LocalRootCA.crt"; "-subj";
      "/C=US/ST=State/L=City/O=Local CA/OU=Development/CN=Local Root CA"];
     ["openssl"; "x509"; "-in"; "LocalRootCA.crt";
      "-out"; "LocalRootCA.pem"; "-outform"; "PEM"]].
Proof. reflexivity. Qed.

(** X1.  When [openssl] is not on the search path, [main] prints the two
    lines of the error message and returns: no banner, no prompt, no line
    of input read, nothing made. *)
Theorem tool_missing_aborts (w : World) :
  w_which w !! "openssl" = None →
  main w
  = (Ok tt,
     mkWorld (w_which w) (w_dirs w) (w_files w) (w_stdin w)
       (w_log w
        ++ [Print "Error: OpenSSL is not installed or not available in system PATH";
            Print "Please install OpenSSL and try again"])).
Proof.
  intros H. unfold main. unfold bind at 1.
  by rewrite (check_openssl_missing _ H).
Qed.

Lemma tool_missing_aborts_witness :
  main (mkWorld ∅ ∅ ∅ ["y"; "example.com"] [])
  = (Ok tt,
     mkWorld ∅ ∅ ∅ ["y"; "example.com"]
       ([] ++ [Print "Error: OpenSSL is not installed or not available in system PATH";
               Print "Please install OpenSSL and try again"])).
Proof.
  apply (tool_missing_aborts (mkWorld ∅ ∅ ∅ ["y"; "example.com"] [])).
  reflexivity.
Defined.

(** X2.  Whatever the environment and the input, and however the run
    ends, the only directories [main] asks the system to make are
    [domains] and [domains/<dir_domain>], the only file it opens or writes
    is [domains/<dir_domain>/openssl.cnf], and the only commands it starts
    are the three [openssl] commands of the issuance for that name;
    [<dir_domain>] is the first line typed, stripped and without its
    [*.].  These are the paths as [main] hands them over: which place of
    the disk such a path names is for the file system to say. *)
Theorem main_effects_confined (w : World) :
  Forall (main_effect (Py.replace "*." "" (Py.strip (hd "" (w_stdin w)))))
         (new_events w (snd (main w))).
Proof.
  destruct (main_cases_full w) as (r & w' & evs & Hrun & Hlog & _ & Hev & _).
  rewrite Hrun. cbn [snd]. by rewrite (new_events_app _ _ _ Hlog).
Qed.

(** X3.  With fewer than two lines of input [main] makes no directory,
    opens no file and starts no [openssl], whatever else holds. *)
Theorem main_needs_two_lines (w : World) :
  length (w_stdin w) < 2 →
  disk_kept w (snd (main w))
  ∧ runs (new_events w (snd (main w))) = [].
Proof.
  intros Hlen.
  destruct (main_cases w) as (r & w' & evs & Hrun & Hlog & _ & Hcase).
  rewrite Hrun. cbn [snd]. rewrite (new_events_app _ _ _ Hlog).
  destruct Hcase as [(Hd & Hr & _)|(l1 & l2 & rest & Hin & _)]; [done|].
  rewrite Hin in Hlen. simpl in Hlen. lia.
Qed.

Lemma main_needs_two_lines_witness :
  disk_kept (example_world true ["example.com"])
            (snd (main (example_world true ["example.com"])))
  ∧ runs (new_events (example_world true ["example.com"])
                     (snd (main (example_world true ["example.com"])))) = [].
Proof.
  apply (main_needs_two_lines (example_world true ["example.com"])).
  vm_compute. lia.
Defined.

(** X4.  In every run [main] starts [openssl] either not at all or three
    times, for the key, the request and the certificate of one domain, and
    then the run ends normally.  None of the commands of [create_root_ca]
    is ever started (the call of line 122 raises before its body). *)
Theorem main_runs_issuance_only (w : World) :
  (runs (new_events w (snd (main w))) = []
   ∨ (fst (main w) = Ok tt
      ∧ ∃ dir_domain config_file,
          runs (new_events w (snd (main w)))
          = issuance_runs dir_domain config_file))
  ∧ ∀ argv, argv ∈ root_ca_runs →
            argv ∉ runs (new_events w (snd (main w))).
Proof.
  destruct (main_cases w) as (r & w' & evs & Hrun & Hlog & _ & Hcase).
  rewrite Hrun. cbn [fst snd]. rewrite (new_events_app _ _ _ Hlog).
  assert (runs evs = []
          ∨ (r = Ok tt ∧ ∃ d c, runs evs = issuance_runs d c)) as Hr.
  { destruct Hcase as [(_ & Hr & _)|(l1 & l2 & rest & _ & _ & _ & _ & _ & Hc)];
      [by left|].
    cbv zeta in Hc. destruct Hc as [(_ & _ & _ & Hr)|(-> & _ & _ & Hr & _)];
      [by left|].
    right. split; [done|]. by eexists _, _. }
  split; [exact Hr|]. intros argv Hca Hin.
  destruct Hr as [Hr|(_ & d & c & Hr)]; rewrite Hr in Hin.
  - by apply elem_of_nil in Hin.
  - rewrite issuance_runs_eq in Hin. rewrite root_ca_runs_eq in Hca.
    repeat (apply elem_of_cons in Hca as [->|Hca]);
      try (by apply elem_of_nil in Hca);
      repeat (apply elem_of_cons in Hin as [Hin|Hin]);
      try (by apply elem_of_nil in Hin); discriminate Hin.
Qed.

Lemma main_runs_issuance_only_witness :
  ["openssl"; "genrsa"; "-des3"; "-passout"; "pass:1234";
   "-out"; "LocalRootCA.key"; "4096"]
  ∉ runs (new_events (example_world false ["y"; "example.com"; ""])
            (snd (main (example_world false ["y"; "example.com"; ""])))).
Proof.
  apply (main_runs_issuance_only
           (example_world false ["y"; "example.com"; ""])).
  apply (bool_decide_eq_true_1 _). vm_compute. reflexivity.
Defined.

(** A run of [main] that started [openssl]: what was typed, what was
    there, and what the run left. *)
Lemma main_issued w :
  runs (new_events w (snd (main w))) ≠ [] →
  ∃ w' evs line1 line2 rest,
    main w = (Ok tt, w')
    ∧ w_log w' = w_log w ++ evs
    ∧ outside_domains_kept w w'
    ∧ w_stdin w = line1 :: line2 :: rest ∧ Py.strip line1 ≠ ""
    ∧ w_stdin w' = rest
    ∧ is_Some (w_which w !! "openssl") ∧ root_ca_files w = true
    ∧ "domains/" +:+ Py.replace "*." "" (Py.strip line1) ∈ w_dirs w'
    ∧ w_files w'
      = <["domains/" +:+ Py.replace "*." "" (Py.strip line1) +:+ "/openssl.cnf"
          := config_head (Py.strip line1)
             +:+ unlines
                   (numbered_from 1
                      (add_main_domain (Py.strip line1)
                         (parse_alt_names (Py.strip line2))))]>
          (w_files w)
    ∧ runs evs
      = issuance_runs
          (Py.replace "*." "" (Py.strip line1))
          ("domains/" +:+ Py.replace "*." "" (Py.strip line1) +:+ "/openssl.cnf")
    ∧ exists_in w' "domains" = true
    ∧ last evs
      = Some (Print
                (if Py.contains "*" (Py.strip line1)
                 then "   But NOT for: sub.test.example.com (different level)"
                 else "1. Your certificate files are in the 'domains' directory")).
Proof.
  destruct (main_cases_full w)
    as (r & w' & evs & Hrun & Hlog & Hout & _ & Hcase).
  rewrite Hrun. cbn [snd]. rewrite (new_events_app _ _ _ Hlog). intros Hne.
  destruct Hcase
    as [(_ & Hr & _)
       |(l1 & l2 & rest & Hin & Hd & Hst & Hw & Hca & Hc)]; [done|].
  cbv zeta in Hc.
  destruct Hc as [(_ & _ & _ & Hr)|(-> & Hdir & Hfl & Hr & _ & Hex & Hlast)];
    [done|].
  exists w', evs, l1, l2, rest. repeat (split; [done|]). done.
Qed.

(** X6.  A run of [main] that ended normally and started [openssl] had
    the tool and the three root CA files, read exactly two lines, the
    first not blank, and left behind: [domains], the directory
    [domains/<dir_domain>], the configuration file with the head and the
    numbered final list, and the three [openssl] commands for key,
    request and certificate with the paths of that directory. *)
Theorem main_issues_certificate (w : World) :
  fst (main w) = Ok tt →
  runs (new_events w (snd (main w))) ≠ [] →
  ∃ line1 line2 rest,
    w_stdin w = line1 :: line2 :: rest
    ∧ Py.strip line1 ≠ ""
    ∧ is_Some (w_which w !! "openssl")
    ∧ root_ca_files w = true
    ∧ w_stdin (snd (main w)) = rest
    ∧ exists_in (snd (main w)) "domains" = true
    ∧ "domains/" +:+ Py.replace "*." "" (Py.strip line1)
      ∈ w_dirs (snd (main w))
    ∧ w_files (snd (main w))
        !! ("domains/" +:+ Py.replace "*." "" (Py.strip line1)
            +:+ "/openssl.cnf")
      = Some (config_head (Py.strip line1)
              +:+ unlines
                    (numbered_from 1
                       (add_main_domain (Py.strip line1)
                          (parse_alt_names (Py.strip line2)))))
    ∧ let d := Py.replace "*." "" (Py.strip line1) in
      runs (new_events w (snd (main w)))
      = [["openssl"; "genrsa"; "-out";
          "domains/" +:+ d +:+ "/" +:+ d +:+ ".key"; "2048"];
         ["openssl"; "req"; "-new"; "-key";
          "domains/" +:+ d +:+ "/" +:+ d +:+ ".key";
          "-out"; "domains/" +:+ d +:+ "/" +:+ d +:+ ".csr";
          "-config"; "domains/" +:+ d +:+ "/openssl.cnf"];
         ["openssl"; "x509"; "-req"; "-in";
          "domains/" +:+ d +:+ "/" +:+ d +:+ ".csr";
          "-CA"; "LocalRootCA.crt"; "-CAkey"; "LocalRootCA.key";
          "-passin"; "pass:1234"; "-CAcreateserial";
          "-out"; "domains/" +:+ d +:+ "/" +:+ d +:+ ".crt";
          "-days"; "365"; "-sha256";
          "-extfile"; "domains/" +:+ d +:+ "/openssl.cnf";
          "-extensions"; "v3_req"]].
Proof.
  intros _ Hne.
  destruct (main_issued w Hne)
    as (w' & evs & l1 & l2 & rest & Hrun & Hlog & _ & Hin & Hd & Hst & Hw
        & Hca & Hdir & Hfl & Hr & Hex & _).
  rewrite Hrun. cbn [snd]. rewrite (new_events_app _ _ _ Hlog).
  exists l1, l2, rest. repeat (split; [done|]).
  split; [by rewrite Hfl, lookup_insert_eq|].
  cbv zeta. by rewrite Hr, issuance_runs_eq.
Qed.

Lemma main_issues_certificate_witness :
  ∃ line1 line2 rest,
    w_stdin (example_world true ["example.com"; "www.example.com"]) = line1 :: line2 :: rest
    ∧ Py.strip line1 ≠ ""
    ∧ is_Some (w_which (example_world true ["example.com"; "www.example.com"]) !! "openssl")
    ∧ root_ca_files (example_world true ["example.com"; "www.example.com"]) = true
    ∧ w_stdin (snd (main (example_world true ["example.com"; "www.example.com"]))) = rest
    ∧ exists_in (snd (main (example_world true ["example.com"; "www.example.com"]))) "domains" = true
    ∧ "domains/" +:+ Py.replace "*." "" (Py.strip line1)
      ∈ w_dirs (snd (main (example_world true ["example.com"; "www.example.com"])))
    ∧ w_files (snd (main (example_world true ["example.com"; "www.example.com"])))
        !! ("domains/" +:+ Py.replace "*." "" (Py.strip line1)
            +:+ "/openssl.cnf")
      = Some (config_head (Py.strip line1)
              +:+ unlines
                    (numbered_from 1
                       (add_main_domain (Py.strip line1)
                          (parse_alt_names (Py.strip line2)))))
    ∧ let d := Py.replace "*." "" (Py.strip line1) in
      runs (new_events (example_world true ["example.com"; "www.example.com"]) (snd (main (example_world true ["example.com"; "www.example.com"]))))
      = [["openssl"; "genrsa"; "-out";
          "domains/" +:+ d +:+ "/" +:+ d +:+ ".key"; "2048"];
         ["openssl"; "req"; "-new"; "-key";
          "domains/" +:+ d +:+ "/" +:+ d +:+ ".key";
          "-out"; "domains/" +:+ d +:+ "/" +:+ d +:+ ".csr";
          "-config"; "domains/" +:+ d +:+ "/openssl.cnf"];
         ["openssl"; "x509"; "-req"; "-in";
          "domains/" +:+ d +:+ "/" +:+ d +:+ ".csr";
          "-CA"; "LocalRootCA.crt"; "-CAkey"; "LocalRootCA.key";
          "-passin"; "pass:1234"; "-CAcreateserial";
          "-out"; "domains/" +:+ d +:+ "/" +:+ d +:+ ".crt";
          "-days"; "365"; "-sha256";
          "-extfile"; "domains/" +:+ d +:+ "/openssl.cnf";
          "-extensions"; "v3_req"]].
Proof.
  apply (main_issues_certificate (example_world true ["example.com"; "www.example.com"])).
  - vm_compute. reflexivity.
  - vm_compute. discriminate.
Defined.

(** X8.  Two domains with the same directory name share one
    configuration file, and generating for the second replaces what was
    generated for the first: the file is as if only the second call had
    been made.  [*.<rest>] and [<rest>] are such a pair. *)
Theorem config_regenerated (domain1 domain2 : string)
    (names1 names2 : list string) (w : World) :
  Py.replace "*." "" domain1 = Py.replace "*." "" domain2 →
  "domains/" +:+ Py.replace "*." "" domain2 ∈ w_dirs w →
  ∃ path w1 w2,
    create_openssl_config domain1 names1 w = (Ok path, w1)
    ∧ create_openssl_config domain2 names2 w1 = (Ok path, w2)
    ∧ w_files w2 = w_files (snd (create_openssl_config domain2 names2 w))
    ∧ w_files w2 !! path
      = Some (config_head domain2 +:+ unlines (numbered_from 1 names2)).
Proof.
  intros Heq Hdir.
  assert ("domains/" +:+ Py.replace "*." "" domain1 ∈ w_dirs w) as Hdir1
    by by rewrite Heq.
  rewrite (create_openssl_config_run domain1 names1 w Hdir1). cbv zeta.
  rewrite Heq. eexists _, _, _. split; [reflexivity|].
  rewrite (create_openssl_config_run domain2 names2 w Hdir).
  erewrite create_openssl_config_run by (proj; exact Hdir). cbv zeta.
  split; [reflexivity|]. cbn [snd]. proj.
  split; [apply insert_insert_eq|apply lookup_insert_eq].
Qed.

Lemma config_regenerated_witness :
  ∃ path w1 w2,
    create_openssl_config "*.example.com" ["*.example.com"]
      (mkWorld ∅ {[ "domains/example.com" ]} ∅ [] []) = (Ok path, w1)
    ∧ create_openssl_config "example.com" ["example.com"] w1 = (Ok path, w2)
    ∧ w_files w2
      = w_files (snd (create_openssl_config "example.com" ["example.com"]
                        (mkWorld ∅ {[ "domains/example.com" ]} ∅ [] [])))
    ∧ w_files w2 !! path
      = Some (config_head "example.com" +:+ unlines ["DNS.1 = example.com"]).
Proof.
  apply (config_regenerated "*.example.com" "example.com"
           ["*.example.com"] ["example.com"]
           (mkWorld ∅ {[ "domains/example.com" ]} ∅ [] [])).
  - reflexivity.
  - apply (bool_decide_eq_true_1 _). vm_compute. reflexivity.
Defined.

(** *** The directory name and the final list *)

Lemma replace_marker_length s k :
  String.length (Py.replace_scan "*." "" k s) ≤ String.length s.
Proof.
  revert k. induction s as [|c r IH]; intros k; [done|].
  cbn [Py.replace_scan String.length]. destruct k as [|k].
  - destruct (Py.startswith "*." (String c r)).
    + rewrite str_app_nil_l. apply Nat.le_le_succ_r, IH.
    + cbn [String.length]. apply le_n_S, IH.
  - apply Nat.le_le_succ_r, IH.
Qed.

Lemma replace_marker_shorter s :
  Py.contains "*." s = true →
  String.length (Py.replace "*." "" s) < String.length s.
Proof.
  rewrite replace_marker_unfold.
  induction s as [|c r IH]; [done|]. intros H.
  cbn [Py.contains] in H. cbn [Py.replace_scan String.length].
  destruct (Py.startswith "*." (String c r)).
  - rewrite str_app_nil_l. apply Nat.lt_succ_r, replace_marker_length.
  - cbn [orb] in H. cbn [String.length]. specialize (IH H). lia.
Qed.

(** X9.  The directory name equals the domain exactly when the domain
    holds no [*.]; otherwise it is shorter. *)
Theorem dir_domain_same_iff (domain : string) :
  (Py.replace "*." "" domain = domain ↔ Py.contains "*." domain = false)
  ∧ String.length (Py.replace "*." "" domain) ≤ String.length domain.
Proof.
  split; [|rewrite replace_marker_unfold; apply replace_marker_length].
  split; [|apply replace_marker_absent].
  intros Heq. destruct (Py.contains "*." domain) eqn:E; [|done].
  apply replace_marker_shorter in E. rewrite Heq in E. lia.
Qed.

(** X10.  The final list of alternate names always holds the main domain,
    holds besides it exactly the names typed, and is not changed by
    adding the main domain once more. *)
Theorem add_main_domain_invariants (domain : string)
    (alt_names_list : list string) :
  domain ∈ add_main_domain domain alt_names_list
  ∧ (∀ name, name ∈ add_main_domain domain alt_names_list
             ↔ name = domain ∨ name ∈ alt_names_list)
  ∧ add_main_domain domain (add_main_domain domain alt_names_list)
    = add_main_domain domain alt_names_list
  ∧ alt_names_list `suffix_of` add_main_domain domain alt_names_list.
Proof.
  unfold add_main_domain, Py.list_insert.
  destruct (Py.list_contains domain alt_names_list) eqn:E; cbn [negb].
  - apply list_contains_iff in E. rewrite (proj2 (list_contains_iff _ _) E).
    cbn [negb]. repeat split; try done.
    + by right.
    + intros [->|H]; done.
  - change (take 0 alt_names_list ++ domain :: drop 0 alt_names_list)
      with (domain :: alt_names_list).
    cbn [Py.list_contains]. rewrite String.eqb_refl. cbn [negb].
    repeat split.
    + by left.
    + by intros ?%elem_of_cons.
    + by intros ?%elem_of_cons.
    + by apply suffix_cons_r.
Qed.

(** *** The parsed names *)

Lemma rstrip_idem s : Py.rstrip (Py.rstrip s) = Py.rstrip s.
Proof.
  induction s as [|c r IH]; [done|].
  cbn [Py.rstrip]. destruct (Py.rstrip r) as [|a b] eqn:Er.
  - destruct (Py.isspace c) eqn:E; [done|]. cbn [Py.rstrip]. by rewrite E.
  - remember (String a b) as r' eqn:Hr'. cbn [Py.rstrip]. rewrite IH.
    by rewrite Hr'.
Qed.

Lemma strip_idem s : Py.strip (Py.strip s) = Py.strip s.
Proof.
  unfold Py.strip. by rewrite lstrip_rstrip, lstrip_idem, rstrip_idem.
Qed.

Lemma has_char_lstrip c s :
  has_char c s = false → has_char c (Py.lstrip s) = false.
Proof.
  induction s as [|a r IH]; [done|]. intros H. cbn [Py.lstrip].
  destruct (Py.isspace a); [|done].
  simpl in H. apply orb_false_iff in H as [_ H]. by apply IH.
Qed.

Lemma has_char_rstrip c s :
  has_char c s = false → has_char c (Py.rstrip s) = false.
Proof.
  induction s as [|a r IH]; [done|]. intros H.
  simpl in H. apply orb_false_iff in H as [Ha Hr]. specialize (IH Hr).
  cbn [Py.rstrip]. destruct (Py.rstrip r) as [|x y].
  - destruct (Py.isspace a); [done|]. simpl. by rewrite Ha.
  - cbn [has_char]. cbn [has_char] in IH. by rewrite Ha, IH.
Qed.

Lemma has_char_strip c s :
  has_char c s = false → has_char c (Py.strip s) = false.
Proof. intros H. by apply has_char_rstrip, has_char_lstrip. Qed.

(** No segment of a split holds the separator. *)
Lemma split_segments_no_sep sep s :
  Forall (fun x => has_char sep x = false) (Py.split sep s).
Proof.
  induction s as [|c r IH]; [by repeat constructor|].
  cbn [Py.split]. destruct (Ascii.eqb c sep) eqn:E.
  - by constructor.
  - destruct (Py.split sep r) as [|h t]; [by repeat constructor; simpl; rewrite E|].
    inversion IH as [|x l Hh Ht]; subst. constructor; [|done].
    simpl. by rewrite E, Hh.
Qed.

(** A character missing from the text is missing from every segment. *)
Lemma split_segments_has_char c sep s :
  has_char c s = false →
  Forall (fun x => has_char c x = false) (Py.split sep s).
Proof.
  induction s as [|a r IH]; [by repeat constructor|]. intros H.
  simpl in H. apply orb_false_iff in H as [Ha Hr]. specialize (IH Hr).
  cbn [Py.split]. destruct (Ascii.eqb a sep).
  - by constructor.
  - destruct (Py.split sep r) as [|h t]; [by repeat constructor; simpl; rewrite Ha|].
    inversion IH as [|x l Hh Ht]; subst. constructor; [|done].
    simpl. by rewrite Ha, Hh.
Qed.

Lemma parse_alt_names_elem name alt_names :
  name ∈ parse_alt_names alt_names →
  ∃ segment, segment ∈ Py.split "," alt_names
             ∧ name = Py.strip segment ∧ name ≠ "".
Proof.
  unfold parse_alt_names.
  induction (Py.split "," alt_names) as [|seg l IH]; cbn [flat_map].
  - by intros ?%elem_of_nil.
  - intros [H|H]%elem_of_app.
    + destruct (String.eqb (Py.strip seg) "") eqn:E; cbn [negb] in H.
      * by apply elem_of_nil in H.
      * apply list_elem_of_singleton in H. subst name.
        apply String.eqb_neq in E. exists seg. split; [by left|done].
    + destruct (IH H) as (s' & Hs' & Hn). exists s'. split; [by right|done].
Qed.

(** X11.  Every alternate name parsed from a line is non-empty, has no
    whitespace at either end and holds no comma. *)
Theorem parsed_names_clean (alt_names name : string) :
  name ∈ parse_alt_names alt_names →
  name ≠ "" ∧ Py.strip name = name ∧ has_char "," name = false.
Proof.
  intros H. apply parse_alt_names_elem in H as (seg & Hseg & -> & Hne).
  split; [done|]. split; [apply strip_idem|].
  apply has_char_strip.
  pose proof (split_segments_no_sep "," alt_names) as Hall.
  rewrite Forall_forall in Hall. by apply Hall.
Qed.

Lemma parsed_names_clean_witness :
  "b c" ≠ "" ∧ Py.strip "b c" = "b c" ∧ has_char "," "b c" = false.
Proof.
  apply (parsed_names_clean " a ,, b c	," "b c").
  apply (bool_decide_eq_true_1 _). vm_compute. reflexivity.
Defined.

(** *** The issuance steps *)

(** X12.  When the three issuance steps in a row return, what they
    return is the path of the certificate, and the three commands they
    started hand on what they make: the request is made from the key the
    first command was asked for, the certificate from that request and
    at the path returned, and request and certificate both get the
    configuration file. *)
Theorem issuance_chain (domain config_file : string) (w w' : World)
    (r : string) :
  bind (create_key domain)
       (fun _ => bind (create_csr domain config_file)
                      (fun _ => sign_certificate domain config_file)) w
  = (Ok r, w') →
  let key := "domains/" +:+ domain +:+ "/" +:+ domain +:+ ".key" in
  let csr := "domains/" +:+ domain +:+ "/" +:+ domain +:+ ".csr" in
  let crt := "domains/" +:+ domain +:+ "/" +:+ domain +:+ ".crt" in
  r = crt
  ∧ ∃ k q s,
      runs (new_events w w') = [k; q; s]
      ∧ k = ["openssl"; "genrsa"; "-out"; key; "2048"]
      ∧ q = ["openssl"; "req"; "-new"; "-key"; key; "-out"; csr;
             "-config"; config_file]
      ∧ s = ["openssl"; "x509"; "-req"; "-in"; csr;
             "-CA"; "LocalRootCA.crt"; "-CAkey"; "LocalRootCA.key";
             "-passin"; "pass:1234"; "-CAcreateserial"; "-out"; crt;
             "-days"; "365"; "-sha256"; "-extfile"; config_file;
             "-extensions"; "v3_req"]
      ∧ arg_after "-key" q = arg_after "-out" k
      ∧ arg_after "-in" s = arg_after "-out" q
      ∧ arg_after "-out" s = Some r
      ∧ arg_after "-config" q = Some config_file
      ∧ arg_after "-extfile" s = Some config_file.
Proof.
  cbv zeta. unfold bind at 1. rewrite create_key_run.
  unfold bind at 1. rewrite create_csr_run. rewrite sign_certificate_run. proj.
  intros H. injection H as <- <-. split; [reflexivity|].
  eexists _, _, _. split.
  { erewrite new_events_app by (proj; rewrite <- !app_assoc; reflexivity).
    reflexivity. }
  repeat split; reflexivity.
Qed.

Lemma issuance_chain_witness :
  "domains/a.test/a.test.crt"
  = "domains/" +:+ "a.test" +:+ "/" +:+ "a.test" +:+ ".crt".
Proof.
  apply (issuance_chain "a.test" "domains/a.test/openssl.cnf"
           (example_world true [])
           (snd (bind (create_key "a.test")
                   (fun _ => bind (create_csr "a.test"
                                     "domains/a.test/openssl.cnf")
                               (fun _ => sign_certificate "a.test"
                                           "domains/a.test/openssl.cnf"))
                   (example_world true [])))
           "domains/a.test/a.test.crt").
  reflexivity.
Defined.

Lemma contains_sep_has_char s : Py.contains "/" s = has_char "/" s.
Proof.
  induction s as [|c r IH]; [done|].
  cbn [Py.contains Py.startswith has_char].
  by rewrite IH, andb_true_r, Ascii.eqb_sym.
Qed.

Lemma dirname_app_sep a b :
  dirname (a +:+ "/" +:+ b)
  = if has_char "/" b then a +:+ "/" +:+ dirname b else a.
Proof.
  induction a as [|c r IH].
  - rewrite !str_app_nil_l. change ("/" +:+ b) with (String "/" b).
    cbn [dirname]. rewrite contains_sep_has_char.
    by destruct (has_char "/" b).
  - rewrite (str_app_cons c r ("/" +:+ b)). cbn [dirname].
    rewrite contains_sep_has_char, has_char_app.
    change (has_char "/" ("/" +:+ b)) with true. rewrite orb_true_r, IH.
    by destruct (has_char "/" b).
Qed.

Lemma str_app_length s t :
  String.length (s +:+ t) = String.length s + String.length t.
Proof.
  induction s as [|c s IH]; [done|].
  rewrite str_app_cons. cbn [String.length]. by rewrite IH.
Qed.

(** [dirname] of an output path of the issuance steps is the directory
    [domains/<domain>] exactly when the domain holds no separator. *)
Lemma issuance_path_directory (domain ext : string) :
  has_char "/" ext = false →
  (dirname ("domains/" +:+ domain +:+ "/" +:+ domain +:+ ext)
   = "domains/" +:+ domain
   ↔ has_char "/" domain = false).
Proof.
  intros Hext.
  rewrite <- (str_app_assoc "domains/" domain), dirname_app_sep.
  rewrite has_char_app, Hext, orb_false_r.
  destruct (has_char "/" domain); [|done].
  split; [|done]. intros H.
  apply (f_equal String.length) in H. rewrite !str_app_length in H.
  cbn [String.length] in H. lia.
Qed.

Lemma has_char_replace_marker c s k :
  has_char c s = false →
  has_char c (Py.replace_scan "*." "" k s) = false.
Proof.
  revert k. induction s as [|a r IH]; intros k H; [done|].
  simpl in H. apply orb_false_iff in H as [Ha Hr].
  cbn [Py.replace_scan]. destruct k as [|k]; [|by apply IH].
  destruct (Py.startswith "*." (String a r)).
  - rewrite str_app_nil_l. by apply IH.
  - cbn [has_char]. by rewrite Ha, IH.
Qed.

(** X14.  When the first line typed holds no slash, every output path
    that [main] hands to [openssl] lies in a directory that exists when
    [main] is done. *)
Theorem main_outputs_in_directory (w : World) :
  (∀ line rest, w_stdin w = line :: rest → has_char "/" line = false) →
  Forall (fun argv => ∃ out, arg_after "-out" argv = Some out
                            ∧ dirname out ∈ w_dirs (snd (main w)))
         (runs (new_events w (snd (main w)))).
Proof.
  intros Hslash.
  destruct (main_cases w) as (r & w' & evs & Hrun & Hlog & _ & Hcase).
  rewrite Hrun. cbn [snd]. rewrite (new_events_app _ _ _ Hlog).
  destruct Hcase as [(_ & -> & _)|(l1 & l2 & rest & Hin & _ & _ & _ & _ & Hc)];
    [constructor|].
  cbv zeta in Hc. destruct Hc as [(_ & _ & _ & ->)|(_ & Hdir & _ & -> & _)];
    [constructor|].
  assert (has_char "/" (Py.replace "*." "" (Py.strip l1)) = false) as Hd.
  { rewrite replace_marker_unfold.
    apply has_char_replace_marker, has_char_strip. by eapply Hslash. }
  rewrite issuance_runs_eq.
  repeat constructor; eexists; (split; [reflexivity|]).
  - by rewrite (proj2 (issuance_path_directory _ ".key" eq_refl) Hd).
  - by rewrite (proj2 (issuance_path_directory _ ".csr" eq_refl) Hd).
  - by rewrite (proj2 (issuance_path_directory _ ".crt" eq_refl) Hd).
Qed.

Lemma main_outputs_in_directory_witness :
  Forall (fun argv =>
            ∃ out, arg_after "-out" argv = Some out
                   ∧ dirname out
                     ∈ w_dirs (snd (main (example_world true
                                            ["*.example.com"; ""]))))
         (runs (new_events (example_world true ["*.example.com"; ""])
                  (snd (main (example_world true ["*.example.com"; ""]))))).
Proof.
  apply (main_outputs_in_directory (example_world true ["*.example.com"; ""])).
  intros line rest H. injection H as <- _. reflexivity.
Defined.

(** *** The root CA *)

Lemma subprocess_run_run argv w :
  subprocess_run argv w
  = (Ok tt, mkWorld (w_which w) (w_dirs w) (w_files w) (w_stdin w)
                    (w_log w ++ [Run argv])).
Proof. reflexivity. Qed.

(** X15.  When [create_root_ca], called as it is defined, returns, it
    has started three [openssl] commands: the certificate is made from the
    key of the first with the passphrase that key was given, the PEM copy
    from that certificate; the three files they are asked for are the
    ones line 119 tests; and the signing step of every domain reads that
    key and certificate with that passphrase. *)
Theorem root_ca_chain (w w' : World) :
  create_root_ca w = (Ok tt, w') →
  ∃ k c p,
    runs (new_events w w') = [k; c; p]
    ∧ k = ["openssl"; "genrsa"; "-des3"; "-passout"; "pass:1234";
           "-out"; "LocalRootCA.key"; "4096"]
    ∧ c = ["openssl"; "req"; "-x509"; "-new"; "-nodes";
           "-key"; "LocalRootCA.key"; "-sha256"; "-days"; "3650";
           "-passin"; "pass:1234"; "-out"; "LocalRootCA.crt"; "-subj";
           "/C=US/ST=State/L=City/O=Local CA/OU=Development/CN=Local Root CA"]
    ∧ p = ["openssl"; "x509"; "-in"; "LocalRootCA.crt";
           "-out"; "LocalRootCA.pem"; "-outform"; "PEM"]
    ∧ arg_after "-key" c = arg_after "-out" k
    ∧ arg_after "-passin" c = arg_after "-passout" k
    ∧ arg_after "-in" p = arg_after "-out" c
    ∧ (∀ w0, root_ca_files w0 = true
             ↔ Forall (fun argv => ∃ out, arg_after "-out" argv = Some out
                                          ∧ exists_in w0 out = true)
                      [k; c; p])
    ∧ (∀ domain config_file w1 w1' r,
         sign_certificate domain config_file w1 = (Ok r, w1') →
         ∃ s, runs (new_events w1 w1') = [s]
              ∧ arg_after "-CAkey" s = arg_after "-out" k
              ∧ arg_after "-CA" s = arg_after "-out" c
              ∧ arg_after "-passin" s = arg_after "-passout" k).
Proof.
  unfold create_root_ca.
  do 6 (unfold bind at 1;
        first [rewrite print_run | rewrite subprocess_run_run]; proj).
  rewrite print_run. proj. intros H. injection H as <-.
  eexists _, _, _. split.
  { erewrite new_events_app by (proj; rewrite <- !app_assoc; reflexivity).
    reflexivity. }
  do 6 (split; [reflexivity|]). split.
  - intros w0. unfold root_ca_files. split.
    + intros H. apply andb_true_iff in H as [H Hp].
      apply andb_true_iff in H as [Hk Hc].
      repeat constructor; eexists; (split; [reflexivity|]); done.
    + intros H.
      inversion H as [|x1 l1 (o1 & E1 & H1) H' ]; subst.
      inversion H' as [|x2 l2 (o2 & E2 & H2) H'']; subst.
      inversion H'' as [|x3 l3 (o3 & E3 & H3) _]; subst.
      injection E1 as <-. injection E2 as <-. injection E3 as <-.
      by rewrite H1, H2, H3.
  - intros domain config_file w1 w1' r. rewrite sign_certificate_run.
    intros H. injection H as <- <-. eexists. split.
    { erewrite new_events_app by (proj; reflexivity). reflexivity. }
    repeat split; reflexivity.
Qed.

Lemma root_ca_chain_witness :
  ∃ k c p,
    runs (new_events (example_world false [])
            (snd (create_root_ca (example_world false [])))) = [k; c; p]
    ∧ arg_after "-out" k = Some "LocalRootCA.key"
    ∧ arg_after "-out" c = Some "LocalRootCA.crt"
    ∧ arg_after "-out" p = Some "LocalRootCA.pem".
Proof.
  destruct (root_ca_chain (example_world false [])
              (snd (create_root_ca (example_world false []))) eq_refl)
    as (k & c & p & Hr & -> & -> & -> & _).
  eexists _, _, _. split; [exact Hr|]. repeat split; reflexivity.
Defined.

(** *** Running twice *)

(** X16.  After a run of [main] that started [openssl], a second run
    with the same two lines ends normally again, makes no directory,
    writes the configuration file with the same text, and starts the same
    three commands. *)
Theorem rerun_same_configuration (w : World) (line1 line2 : string)
    (rest : list string) :
  w_stdin w = line1 :: line2 :: line1 :: line2 :: rest →
  fst (main w) = Ok tt →
  runs (new_events w (snd (main w))) ≠ [] →
  fst (main (snd (main w))) = Ok tt
  ∧ w_dirs (snd (main (snd (main w)))) = w_dirs (snd (main w))
  ∧ w_files (snd (main (snd (main w))))
      !! ("domains/" +:+ Py.replace "*." "" (Py.strip line1) +:+ "/openssl.cnf")
    = w_files (snd (main w))
        !! ("domains/" +:+ Py.replace "*." "" (Py.strip line1)
            +:+ "/openssl.cnf")
  ∧ is_Some (w_files (snd (main w))
               !! ("domains/" +:+ Py.replace "*." "" (Py.strip line1)
                   +:+ "/openssl.cnf"))
  ∧ w_stdin (snd (main (snd (main w)))) = rest
  ∧ runs (new_events (snd (main w)) (snd (main (snd (main w)))))
    = runs (new_events w (snd (main w))).
Proof.
  intros Hin _ Hne.
  destruct (main_issued w Hne)
    as (w1 & evs1 & l1 & l2 & rest1 & Hrun1 & Hlog1 & Hout1 & Hin1 & Hd
        & Hst1 & Hw & Hca & Hdir1 & Hfl1 & Hr1 & Hex1 & _).
  rewrite Hin in Hin1. injection Hin1 as <- <- <-.
  rewrite Hrun1. cbn [fst snd]. rewrite (new_events_app _ _ _ Hlog1).
  destruct Hout1 as (Hwh & Hsub & Hof).
  set (dir := "domains/" +:+ Py.replace "*." "" (Py.strip line1)) in *.
  assert (root_ca_files w1 = true) as Hca1.
  { unfold root_ca_files in *.
    apply andb_true_iff in Hca as [Hca Hp].
    apply andb_true_iff in Hca as [Hk Hc].
    rewrite !(exists_in_mono w w1) by (try done; by apply Hof). done. }
  destruct (main_cases_full w1)
    as (r & w2 & evs2 & Hrun2 & Hlog2 & Hout2 & _ & Hcase).
  rewrite Hrun2. cbn [fst snd]. rewrite (new_events_app _ _ _ Hlog2).
  destruct Hcase
    as [(_ & _ & _ & Hwhy)
       |(l1 & l2 & rest2 & Hin2 & _ & Hst2 & _ & _ & Hc)].
  { exfalso. destruct Hwhy as [Hn|[Hn|[Hn|(l & t & Hl & Hs)]]].
    - rewrite Hwh in Hn. rewrite Hn in Hw. by destruct Hw.
    - by rewrite Hca1 in Hn.
    - rewrite Hst1 in Hn. simpl in Hn. lia.
    - rewrite Hst1 in Hl. injection Hl as <- _. done. }
  rewrite Hst1 in Hin2. injection Hin2 as <- <- <-.
  cbv zeta in Hc. fold dir in Hc.
  destruct Hc as [(_ & Hno & _)|(-> & _ & Hfl2 & Hr2 & Hsame & _)].
  { destruct Hno. destruct Hout2 as (_ & Hsub2 & _). by apply Hsub2. }
  split; [done|].
  split; [apply Hsame; [exact Hex1|by apply exists_in_dir]|].
  split; [by rewrite Hfl2, Hfl1, !lookup_insert_eq|].
  split; [by rewrite Hfl1, lookup_insert_eq|].
  split; [done|]. by rewrite Hr2, Hr1.
Qed.

Lemma rerun_same_configuration_witness :
  fst (main (snd (main (example_world true
                          ["*.a.test"; "b.test"; "*.a.test"; "b.test"]))))
  = Ok tt
  ∧ w_dirs (snd (main (snd (main (example_world true
                          ["*.a.test"; "b.test"; "*.a.test"; "b.test"])))))
    = w_dirs (snd (main (example_world true
                          ["*.a.test"; "b.test"; "*.a.test"; "b.test"])))
  ∧ w_files (snd (main (snd (main (example_world true
                          ["*.a.test"; "b.test"; "*.a.test"; "b.test"])))))
      !! ("domains/" +:+ Py.replace "*." "" (Py.strip "*.a.test")
          +:+ "/openssl.cnf")
    = w_files (snd (main (example_world true
                          ["*.a.test"; "b.test"; "*.a.test"; "b.test"])))
        !! ("domains/" +:+ Py.replace "*." "" (Py.strip "*.a.test")
            +:+ "/openssl.cnf")
  ∧ is_Some (w_files (snd (main (example_world true
                          ["*.a.test"; "b.test"; "*.a.test"; "b.test"])))
               !! ("domains/" +:+ Py.replace "*." "" (Py.strip "*.a.test")
                   +:+ "/openssl.cnf"))
  ∧ w_stdin (snd (main (snd (main (example_world true
                          ["*.a.test"; "b.test"; "*.a.test"; "b.test"])))))
    = []
  ∧ runs (new_events
            (snd (main (example_world true
                          ["*.a.test"; "b.test"; "*.a.test"; "b.test"])))
            (snd (main (snd (main (example_world true
                          ["*.a.test"; "b.test"; "*.a.test"; "b.test"]))))))
    = runs (new_events
              (example_world true
                 ["*.a.test"; "b.test"; "*.a.test"; "b.test"])
              (snd (main (example_world true
                            ["*.a.test"; "b.test"; "*.a.test"; "b.test"])))).
Proof.
  apply (rerun_same_configuration
           (example_world true ["*.a.test"; "b.test"; "*.a.test"; "b.test"])
           "*.a.test" "b.test" []).
  - reflexivity.
  - vm_compute. reflexivity.
  - vm_compute. discriminate.
Defined.

(** *** The configuration file that [main] writes *)

Lemma parse_alt_names_has_char c alt_names :
  has_char c alt_names = false →
  Forall (fun a => has_char c a = false) (parse_alt_names alt_names).
Proof.
  intros H. apply Forall_forall. intros name Hname.
  apply parse_alt_names_elem in Hname as (seg & Hseg & -> & _).
  apply has_char_strip.
  pose proof (split_segments_has_char c "," alt_names H) as Hall.
  rewrite Forall_forall in Hall. by apply Hall.
Qed.

Lemma add_main_domain_forall (P : string → Prop) domain names :
  P domain → Forall P names → Forall P (add_main_domain domain names).
Proof.
  intros Hd Hn. unfold add_main_domain, Py.list_insert.
  destruct (Py.list_contains domain names); cbn [negb]; [done|].
  by constructor.
Qed.

Lemma config_head_cn_line domain rest :
  has_char nl_char domain = false →
  "CN = " +:+ domain ∈ file_lines (config_head domain +:+ rest).
Proof.
  intros Hd. unfold config_head. rewrite file_lines_unlines.
  - apply elem_of_app. left. do 14 apply list_elem_of_further.
    apply list_elem_of_here.
  - repeat (constructor; [first [done | by rewrite has_char_app, Hd] |]).
    constructor.
Qed.

(** X17.  In a run of [main] that ended normally and started [openssl],
    from two lines without a line break inside, the configuration file
    holds the domain as typed, wildcard included, in its [CN] line, and
    its [DNS.] lines are exactly the final list numbered from 1: never
    none, and the domain always among them. *)
Theorem main_config_lines (w : World) (line1 line2 : string)
    (rest : list string) :
  w_stdin w = line1 :: line2 :: rest →
  fst (main w) = Ok tt →
  runs (new_events w (snd (main w))) ≠ [] →
  has_char nl_char line1 = false →
  has_char nl_char line2 = false →
  let domain := Py.strip line1 in
  let names := add_main_domain domain (parse_alt_names (Py.strip line2)) in
  ∃ text,
    w_files (snd (main w))
      !! ("domains/" +:+ Py.replace "*." "" domain +:+ "/openssl.cnf")
    = Some text
    ∧ "CN = " +:+ domain ∈ file_lines text
    ∧ dns_lines text = numbered_from 1 names
    ∧ domain ∈ names
    ∧ length (dns_lines text) = length names.
Proof.
  intros Hin _ Hne Hn1 Hn2 domain names.
  destruct (main_issued w Hne)
    as (w' & evs & l1 & l2 & rest' & Hrun & _ & _ & Hin' & _ & _ & _ & _ & _
        & Hfl & _).
  rewrite Hin in Hin'. injection Hin' as <- <- <-.
  fold domain in Hfl. fold names in Hfl.
  rewrite Hrun. cbn [snd]. rewrite Hfl, lookup_insert_eq.
  assert (has_char nl_char domain = false) as Hnd by by apply has_char_strip.
  assert (Forall (fun a => has_char nl_char a = false) names) as Hnn.
  { apply add_main_domain_forall; [done|].
    by apply parse_alt_names_has_char, has_char_strip. }
  eexists. split; [reflexivity|].
  split; [by apply config_head_cn_line|].
  rewrite (config_head_lines domain names Hnd Hnn).
  split; [done|]. split.
  - unfold names, add_main_domain, Py.list_insert.
    destruct (Py.list_contains domain _) eqn:E; cbn [negb].
    + by apply list_contains_iff.
    + by left.
  - clear. generalize 1. induction names as [|a t IH]; intros n; [done|].
    cbn [numbered_from length]. by rewrite IH.
Qed.

Lemma main_config_lines_witness :
  ∃ text,
    w_files (snd (main (example_world true ["*.example.com"; "a.test, "])))
      !! "domains/example.com/openssl.cnf"
    = Some text
    ∧ "CN = *.example.com" ∈ file_lines text
    ∧ dns_lines text = ["DNS.1 = *.example.com"; "DNS.2 = a.test"]
    ∧ "*.example.com" ∈ ["*.example.com"; "a.test"]
    ∧ length (dns_lines text) = 2.
Proof.
  apply (main_config_lines (example_world true ["*.example.com"; "a.test, "])
           "*.example.com" "a.test, " []);
    first [reflexivity | vm_compute; reflexivity | vm_compute; discriminate].
Defined.

(** X18.  A run of [main] that ended normally and started [openssl] ends
    with the usage instructions; the note on wildcard certificates closes
    them exactly when the domain holds an asterisk, wherever it stands. *)
Theorem main_last_line (w : World) (line1 : string) (rest : list string) :
  w_stdin w = line1 :: rest →
  fst (main w) = Ok tt →
  runs (new_events w (snd (main w))) ≠ [] →
  last (new_events w (snd (main w)))
  = Some (Print
            (if Py.contains "*" (Py.strip line1)
             then "   But NOT for: sub.test.example.com (different level)"
             else "1. Your certificate files are in the 'domains' directory")).
Proof.
  intros Hin _ Hne.
  destruct (main_issued w Hne)
    as (w' & evs & l1 & l2 & rest' & Hrun & Hlog & _ & Hin' & _ & _ & _ & _
        & _ & _ & _ & _ & Hlast).
  rewrite Hin in Hin'. injection Hin' as <- _.
  rewrite Hrun. cbn [snd]. by rewrite (new_events_app _ _ _ Hlog).
Qed.

Lemma main_last_line_witness :
  last (new_events (example_world true ["a*b.test"; ""])
          (snd (main (example_world true ["a*b.test"; ""]))))
  = Some (Print "   But NOT for: sub.test.example.com (different level)").
Proof.
  apply (main_last_line (example_world true ["a*b.test"; ""])
           "a*b.test" [""]);
    first [reflexivity | vm_compute; reflexivity | vm_compute; discriminate].
Defined.
